(** * HDPrivateKey (lib/hdprivatekey.js): a shallow embedding and its properties

    The module under study is the hierarchical deterministic private key of
    bitcore.  Its collaborators (Base58Check, the hash functions, the network
    registry, the curve, the random source, JSON) are other modules of the
    library; they enter the development as the operations of the class
    [Externals], and the few facts about them that the proofs need are
    collected in [ExternalsOK].

    Numbers: a JavaScript number is modelled as NaN or an exact integer.  The
    model and JavaScript agree for magnitudes below 2^53; the bit operators
    reduce modulo 2^32. *)

From Stdlib Require Import ZArith NArith QArith Lia Bool Ascii String Strings.Byte DecimalString.
From stdpp Require Import base option list strings countable gmap.

#[local] Close Scope Q_scope.
#[local] Open Scope Z_scope.

(** ** Bytes and buffers *)

Abbreviation bytes := (list byte).

Definition byteZ (b : byte) : Z := Z.of_N (Byte.to_N b).

(** [z & 0xff] stored in a buffer cell. *)
Definition Zbyte (z : Z) : byte :=
  default x00 (Byte.of_N (Z.to_N (Z.land z 255))).

(** [buf.slice(s, e)] for [0 <= s <= e]. *)
Definition slice (s e : nat) (b : bytes) : bytes := take (e - s) (drop s b).

(** Modelled from the spec: bufferUtil.emptyBuffer (lib/util/buffer.js is
    missing); the layout table has a padding byte 0x00, so [emptyBuffer n] is
    [n] zero bytes. *)
Definition emptyBuffer (n : nat) : bytes := replicate n x00.

(** Modelled from the spec: BN().fromBuffer (lib/crypto/bn.js is missing);
    the scalar is the big-endian integer that the buffer spells. *)
Definition be2Z (b : bytes) : Z := fold_left (fun acc x => acc * 256 + byteZ x) b 0.

(** Big-endian writing on exactly [n] bytes (the low [8n] bits). *)
Fixpoint Z2be (n : nat) (z : Z) : bytes :=
  match n with
  | O => []
  | S n' => Z2be n' (Z.shiftr z 8) ++ [Zbyte z]
  end.

(** Modelled from the spec: bufferUtil.integerAsBuffer (lib/util/buffer.js is
    missing); the spec fixes it as the 4-byte big-endian form of a 32-bit
    value. *)
Definition integerAsBuffer (z : Z) : bytes :=
  [Zbyte (Z.shiftr z 24); Zbyte (Z.shiftr z 16); Zbyte (Z.shiftr z 8); Zbyte z].

(** Modelled from the spec: bufferUtil.integerAsSingleByteBuffer; one byte
    holding the low eight bits. *)
Definition integerAsSingleByteBuffer (z : Z) : bytes := [Zbyte z].

(** Modelled from the spec: bufferUtil.integerFromBuffer; the unsigned
    big-endian value of the first four bytes. *)
Definition integerFromBuffer (b : bytes) : Z := be2Z (take 4 b).

(** Modelled from the spec: bufferUtil.integerFromSingleByteBuffer. *)
Definition integerFromSingleByteBuffer (b : bytes) : Z := be2Z (take 1 b).

(** Modelled from the spec: BN.toBuffer({size: 32}); the scalar on 32
    big-endian bytes. *)
Definition BN_toBuffer32 (z : Z) : bytes := Z2be 32 z.

(** ** JavaScript values seen by the module *)

Inductive Num := NaN | Int (z : Z).

(** Text or raw bytes: what a serialized key can be handed over as. *)
Inductive Data := Str (s : string) | Buf (b : bytes).

Module Network.
  (** A network object, through the two properties read here. *)
Record t := { name : string; xprivkey : Z }.
End Network.

Inductive Val :=
| VUndefined
| VNull
| VBool (b : bool)
| VNum (n : Num)
| VStr (s : string)
| VBuf (b : bytes)
| VNet (n : Network.t).

Module Obj.
  (** A plain object, through the properties the module reads.  A property
      that is not there reads as [VUndefined]. *)
Record t := {
    network : Val;
    version : Val;
    depth : Val;
    parentFingerPrint : Val;
    childIndex : Val;
    chainCode : Val;
    privateKey : Val;
    checksum : Val;
    xprivkey : option Data
  }.

Definition empty : t :=
    {| network := VUndefined; version := VUndefined; depth := VUndefined;
       parentFingerPrint := VUndefined; childIndex := VUndefined;
       chainCode := VUndefined; privateKey := VUndefined;
       checksum := VUndefined; xprivkey := None |}.
End Obj.

(** What JSON.parse can return: a primitive or an object. *)
Inductive Plain := PVal (v : Val) | PObj (o : Obj.t).

Module Buffers.
  (** [this._buffers] once the arguments went through
      [_validateBufferArguments]: every field is a buffer. *)
Record t := {
    version : bytes;
    depth : bytes;
    parentFingerPrint : bytes;
    childIndex : bytes;
    chainCode : bytes;
    privateKey : bytes;
    checksum : bytes
  }.
End Buffers.

Module Checked.
  (** The arguments after [_validateBufferArguments]; [checksum] is [Some]
      exactly when [arg.checksum && arg.checksum.length] held. *)
Record t := {
    version : bytes;
    depth : bytes;
    parentFingerPrint : bytes;
    childIndex : bytes;
    chainCode : bytes;
    privateKey : bytes;
    checksum : option bytes
  }.
End Checked.

(** An instance of HDPrivateKey.  Modelled from the spec: PrivateKey and
    PublicKey (lib/privatekey.js and lib/publickey.js are missing);
    [privateKey] is the scalar that [new PrivateKey(bn)] wraps, taken as is,
    and [publicKey] is the serialized public key derived from it.  The
    companion [hdPublicKey] and [xpubkey] belong to the public-key module
    and are left out. *)
Record HDPrivateKey := {
  _buffers : Buffers.t;
  xprivkey : Data;
  network : option Network.t;
  depth : Z;
  privateKey : Z;
  publicKey : bytes;
  fingerPrint : bytes
}.

(** The argument of the constructor. *)
Inductive Arg :=
| AVal (v : Val)
| AObj (o : Obj.t)
| AKey (k : HDPrivateKey).

(** The error classes of HDPrivateKey.Error, and the foreign ones that
    can escape: a failed [assert], the TypeError of a property read on
    [undefined], and what a collaborator throws. *)
Inductive ErrorKind :=
| InvalidArgument
| InvalidB58Char
| InvalidB58Checksum
| InvalidDerivationArgument
| InvalidEntropyArgument
| InvalidLength
| InvalidNetwork
| InvalidNetworkArgument
| InvalidPath
| NotEnoughEntropy
| TooMuchEntropy
| UnrecognizedArgument
| AssertionError
| TypeError
| ForeignError.

Inductive Result (A : Type) :=
| OK (a : A)
| Throw (e : ErrorKind).
Arguments OK {A} a.
Arguments Throw {A} e.

Definition bind {A B} (r : Result A) (f : A -> Result B) : Result B :=
  match r with
  | OK a => f a
  | Throw e => Throw e
  end.

Declare Scope result_scope.
Delimit Scope result_scope with result.
Notation "'let!' x ':=' r 'in' k" := (bind r (fun x => k))
  (at level 10, x name, r at level 100, k at level 200) : result_scope.
#[local] Open Scope result_scope.

(** ** Tests on values (lodash and the language) *)

Definition truthy (v : Val) : bool :=
  match v with
  | VUndefined | VNull => false
  | VBool b => b
  | VNum NaN => false
  | VNum (Int z) => negb (z =? 0)
  | VStr s => negb (String.eqb s "")
  | VBuf _ | VNet _ => true
  end.

Definition isUndefined (v : Val) : bool :=
  match v with VUndefined => true | _ => false end.

Definition isString (v : Val) : bool :=
  match v with VStr _ => true | _ => false end.

Definition isBuffer (v : Val) : bool :=
  match v with VBuf _ => true | _ => false end.

Definition isNumber (v : Val) : bool :=
  match v with VNum _ => true | _ => false end.

(** [_.isObject]: buffers and network objects are objects. *)
Definition isObject (v : Val) : bool :=
  match v with VBuf _ | VNet _ => true | _ => false end.

Definition asData (v : Val) : option Data :=
  match v with
  | VStr s => Some (Str s)
  | VBuf b => Some (Buf b)
  | _ => None
  end.

Definition ofData (d : Data) : Val :=
  match d with Str s => VStr s | Buf b => VBuf b end.

(** ** lib/util/js.js *)

Definition isHexaChar (c : ascii) : bool :=
  let n := nat_of_ascii c in
  ((48 <=? n) && (n <=? 57) || (97 <=? n) && (n <=? 102) || (65 <=? n) && (n <=? 70))%nat.

Fixpoint allChars (p : ascii -> bool) (s : string) : bool :=
  match s with
  | EmptyString => true
  | String c s' => p c && allChars p s'
  end.

(** [/^[0-9a-fA-F]+$/.test(value)] on a string, [false] on anything else. *)
Definition isHexa (v : Val) : bool :=
  match v with
  | VStr s => negb (String.eqb s "") && allChars isHexaChar s
  | _ => false
  end.

Definition isHexaString := isHexa.

(** ** Builtins of the language on strings *)

(** [s.split(sep)] for a separator of one character. *)
Fixpoint split (sep : ascii) (s : string) : list string :=
  match s with
  | EmptyString => [EmptyString]
  | String c s' =>
      if Ascii.eqb c sep then EmptyString :: split sep s'
      else match split sep s' with
           | w :: ws => String c w :: ws
           | [] => [String c EmptyString]
           end
  end.

(** White space that [parseInt] skips, among the characters below 256. *)
Definition isWhiteSpace (c : ascii) : bool :=
  let n := nat_of_ascii c in
  ((9 <=? n) && (n <=? 13) || (n =? 32) || (n =? 160))%nat.

Fixpoint skipWhiteSpace (s : string) : string :=
  match s with
  | String c s' => if isWhiteSpace c then skipWhiteSpace s' else s
  | EmptyString => s
  end.

(** The value of a digit in the given radix (10 or 16). *)
Definition digitValue (radix : Z) (c : ascii) : option Z :=
  let n := Z.of_nat (nat_of_ascii c) in
  let v := if (48 <=? n) && (n <=? 57) then Some (n - 48)
           else if (97 <=? n) && (n <=? 122) then Some (n - 87)
           else if (65 <=? n) && (n <=? 90) then Some (n - 55)
           else None in
  match v with
  | Some d => if d <? radix then Some d else None
  | None => None
  end.

(** The longest prefix of digits, read left to right; [None] when there is
    no digit at all. *)
Fixpoint readDigits (radix : Z) (s : string) (acc : option Z) : option Z :=
  match s with
  | String c s' =>
      match digitValue radix c with
      | Some d => readDigits radix s' (Some (default 0 acc * radix + d))
      | None => acc
      end
  | EmptyString => acc
  end.

(** [parseInt(s)] without a radix. *)
Definition parseInt (s : string) : Num :=
  let s := skipWhiteSpace s in
  let '(sign, s) :=
    match s with
    | String "-" s' => (-1, s')
    | String "+" s' => (1, s')
    | _ => (1, s)
    end in
  let '(radix, s) :=
    match s with
    | String "0" (String "x" s') => (16, s')
    | String "0" (String "X" s') => (16, s')
    | _ => (10, s)
    end in
  match readDigits radix s None with
  | Some m => Int (sign * m)
  | None => NaN
  end.

(** [n.toString()] *)
Definition Num_toString (n : Num) : string :=
  match n with
  | NaN => "NaN"
  | Int z => NilZero.string_of_int (Z.to_int z)
  end.

(** [_.contains(list, s)] *)
Definition contains (l : list string) (s : string) : bool :=
  existsb (String.eqb s) l.

(** ** Keys of the memoization store *)

#[global] Instance byte_eq_dec : EqDecision byte := Byte.byte_eq_dec.
#[global] Instance byte_countable : Countable byte :=
  inj_countable Byte.to_N Byte.of_N Byte.of_to_N.

#[global] Instance Num_eq_dec : EqDecision Num.
Proof. solve_decision. Defined.
#[global] Instance Num_countable : Countable Num :=
  inj_countable' (fun n => match n with NaN => None | Int z => Some z end)
                 (fun o => match o with None => NaN | Some z => Int z end)
                 (fun n => match n with NaN => eq_refl | Int _ => eq_refl end).

#[global] Instance Data_eq_dec : EqDecision Data.
Proof. solve_decision. Defined.
#[global] Instance Data_countable : Countable Data :=
  inj_countable' (fun d => match d with Str s => inl s | Buf b => inr b end)
                 (fun x => match x with inl s => Str s | inr b => Buf b end)
                 (fun d => match d with Str _ => eq_refl | Buf _ => eq_refl end).

(** Modelled from the spec: HDKeyCache (lib/hdkeycache.js is missing); an
    associative store from (serialized parent, index, hardened) to the
    derived key, without eviction. *)
Abbreviation Cache := (gmap (Data * Num * bool) HDPrivateKey).

(** Modelled from the spec: PrivateKey.toBuffer (lib/privatekey.js is
    missing); the scalar on 32 big-endian bytes. *)
Definition PrivateKey_toBuffer (z : Z) : bytes := BN_toBuffer32 z.

(** ** The collaborators *)

Class Externals := {
  (** encoding/base58 and encoding/base58check *)
  Base58_validCharacters : Data -> bool;
  Base58Check_decode : Data -> option bytes;
  Base58Check_encode : bytes -> string;
  Base58Check_checksum : bytes -> bytes;
  (** crypto/hash: [sha512hmac data key] *)
  Hash_sha512hmac : bytes -> bytes -> bytes;
  Hash_sha256ripemd160 : bytes -> bytes;
  (** networks *)
  Network_get : Val -> option Network.t;
  Network_livenet : Network.t;
  (** crypto/point: the order of the curve *)
  Point_getN : Z;
  (** privatekey: the serialized public key of a scalar,
      [new PrivateKey(bn).toPublicKey().toBuffer()] *)
  PublicKey_toBuffer : Z -> bytes;
  (** crypto/random: the bytes the secure source hands out *)
  Random_getRandomBuffer : nat -> bytes;
  (** the language: JSON.parse ([None] when it throws), the text of a
      buffer, and the number a string or a buffer coerces to *)
  JSON_parse : Data -> option Plain;
  Buffer_toString : bytes -> string;
  ToNumber_text : Data -> Z;
  (** util/buffer: [None] when it throws *)
  hexToBuffer : string -> option bytes
}.

(** ** Constants of the module *)

Definition MINIMUM_ENTROPY_BITS : Q := 128.
Definition BITS_TO_BYTES : Q := 1 / 8.
Definition MAXIMUM_ENTROPY_BITS : Q := 512.

(** [x < y] on numbers that are fractions. *)
Definition Qlt_b (x y : Q) : bool := negb (Qle_bool y x).

Definition Hardened : Z := 0x80000000.
Definition RootElementAlias : list string := ["m"; "M"; "m'"; "M'"]%string.

Definition VersionSize : nat := 4.
Definition DepthSize : nat := 1.
Definition ParentFingerPrintSize : nat := 4.
Definition ChildIndexSize : nat := 4.
Definition ChainCodeSize : nat := 32.
Definition PrivateKeySize : nat := 32.
Definition CheckSumSize : nat := 4.

Definition DataLength : nat := 78.
Definition SerializedByteSize : nat := 82.

Definition VersionStart : nat := 0.
Definition VersionEnd : nat := VersionStart + VersionSize.
Definition DepthStart : nat := VersionEnd.
Definition DepthEnd : nat := DepthStart + DepthSize.
Definition ParentFingerPrintStart : nat := DepthEnd.
Definition ParentFingerPrintEnd : nat := ParentFingerPrintStart + ParentFingerPrintSize.
Definition ChildIndexStart : nat := ParentFingerPrintEnd.
Definition ChildIndexEnd : nat := ChildIndexStart + ChildIndexSize.
Definition ChainCodeStart : nat := ChildIndexEnd.
Definition ChainCodeEnd : nat := ChainCodeStart + ChainCodeSize.
Definition PrivateKeyStart : nat := ChainCodeEnd + 1.
Definition PrivateKeyEnd : nat := PrivateKeyStart + PrivateKeySize.
Definition ChecksumStart : nat := PrivateKeyEnd.
Definition ChecksumEnd : nat := ChecksumStart + CheckSumSize.

(** ** Coercions of the language *)

(** The integer a value becomes under the bit operators. *)
Definition toInteger `{Externals} (v : Val) : Z :=
  match v with
  | VNum (Int z) => z
  | VBool true => 1
  | VStr s => ToNumber_text (Str s)
  | VBuf b => ToNumber_text (Buf b)
  | _ => 0
  end.

(** Whether [v.length] is truthy. *)
Definition hasLength (v : Val) : bool :=
  match v with
  | VStr s => negb (String.eqb s "")
  | VBuf b => negb (length b =? 0)%nat
  | _ => false
  end.

(** The properties of a value that is used as an object. *)
Definition props (p : Plain) : Obj.t :=
  match p with
  | PObj o => o
  | PVal _ => Obj.empty
  end.

Definition truthyP (p : Plain) : bool :=
  match p with
  | PObj _ => true
  | PVal v => truthy v
  end.

Section HDPrivateKey.
Context `{Externals}.

(** [jsUtil.isValidJson]: the parsed value, or [false]. *)
Definition isValidJson (arg : Data) : Plain :=
  match JSON_parse arg with
  | Some p => p
  | None => PVal (VBool false)
  end.

(** ** Validation of the serialized form *)

Definition _validateNetwork (data : bytes) (networkArg : Val) : option ErrorKind :=
  match Network_get networkArg with
  | None => Some InvalidNetworkArgument
  | Some network =>
      let version := slice 0 4 data in
      if negb (integerFromBuffer version =? Network.xprivkey network)
      then Some InvalidNetwork
      else None
  end.

Definition getSerializedError (data network : Val) : option ErrorKind :=
  match asData data with
  | None => Some InvalidArgument
  | Some d =>
      if negb (Base58_validCharacters d) then Some InvalidB58Char else
      match Base58Check_decode d with
      | None => Some InvalidB58Checksum
      | Some data =>
          if negb (length data =? DataLength)%nat then Some InvalidLength else
          if negb (isUndefined network) then
            match _validateNetwork data network with
            | Some error => Some error
            | None => None
            end
          else None
      end
  end.

(** [!getSerializedError(data, network)]: an error object is truthy, [null]
    is not. *)
Definition isValidSerialized (data network : Val) : bool :=
  match getSerializedError data network with
  | Some _ => false
  | None => true
  end.

(** ** Building a key *)

(** [checkBuffer(name, size)]: both assertions; the buffer is handed back so
    that what follows works on bytes. *)
Definition checkBuffer (buff : Val) (size : nat) : Result bytes :=
  match buff with
  | VBuf b => if (length b =? size)%nat then OK b else Throw AssertionError
  | _ => Throw AssertionError
  end.

Definition _validateBufferArguments (arg : Obj.t) : Result Checked.t :=
  let! version := checkBuffer (Obj.version arg) VersionSize in
  let! depth := checkBuffer (Obj.depth arg) DepthSize in
  let! parentFingerPrint := checkBuffer (Obj.parentFingerPrint arg) ParentFingerPrintSize in
  let! childIndex := checkBuffer (Obj.childIndex arg) ChildIndexSize in
  let! chainCode := checkBuffer (Obj.chainCode arg) ChainCodeSize in
  let! privateKey := checkBuffer (Obj.privateKey arg) PrivateKeySize in
  let! checksum :=
    if truthy (Obj.checksum arg) && hasLength (Obj.checksum arg)
    then let! c := checkBuffer (Obj.checksum arg) CheckSumSize in OK (Some c)
    else OK None in
  OK {| Checked.version := version; Checked.depth := depth;
        Checked.parentFingerPrint := parentFingerPrint;
        Checked.childIndex := childIndex; Checked.chainCode := chainCode;
        Checked.privateKey := privateKey; Checked.checksum := checksum |}.

(** The seven buffers of [sequence], concatenated. *)
Definition sequence (version depth parentFingerPrint childIndex chainCode privateKey : bytes) : bytes :=
  version ++ depth ++ parentFingerPrint ++ childIndex ++ chainCode
    ++ emptyBuffer 1 ++ privateKey.

(** [!arg.xprivkey] decides between the text handed in and a fresh
    encoding. *)
Definition xprivkeyOr (given : option Data) (encoded : string) : Data :=
  match given with
  | Some d => if truthy (ofData d) then d else Str encoded
  | None => Str encoded
  end.

Definition _buildFromBuffers (arg : Obj.t) : Result HDPrivateKey :=
  let! a := _validateBufferArguments arg in
  let concat :=
    sequence (Checked.version a) (Checked.depth a) (Checked.parentFingerPrint a)
             (Checked.childIndex a) (Checked.chainCode a) (Checked.privateKey a) in
  let! checksum :=
    match Checked.checksum a with
    | None => OK (Base58Check_checksum concat)
    | Some c =>
        if negb (String.eqb (Buffer_toString c)
                            (Buffer_toString (Base58Check_checksum concat)))
        then Throw InvalidB58Checksum
        else OK c
    end in
  let privateKey := be2Z (Checked.privateKey a) in
  let publicKey := PublicKey_toBuffer privateKey in
  OK {| _buffers :=
          {| Buffers.version := Checked.version a;
             Buffers.depth := Checked.depth a;
             Buffers.parentFingerPrint := Checked.parentFingerPrint a;
             Buffers.childIndex := Checked.childIndex a;
             Buffers.chainCode := Checked.chainCode a;
             Buffers.privateKey := Checked.privateKey a;
             Buffers.checksum := checksum |};
        xprivkey := xprivkeyOr (Obj.xprivkey arg) (Base58Check_encode concat);
        network := Network_get (VNum (Int (integerFromBuffer (Checked.version a))));
        depth := integerFromSingleByteBuffer (Checked.depth a);
        privateKey := privateKey;
        publicKey := publicKey;
        fingerPrint := slice 0 ParentFingerPrintSize (Hash_sha256ripemd160 publicKey) |}.

Definition hexToBuffer_or_throw (s : string) : Result Val :=
  match hexToBuffer s with
  | Some b => OK (VBuf b)
  | None => Throw ForeignError
  end.

Definition _buildFromObject (arg : Obj.t) : Result HDPrivateKey :=
  let! version :=
    if truthy (Obj.network arg) then
      match Network_get (Obj.network arg) with
      | Some n => OK (VBuf (integerAsBuffer (Network.xprivkey n)))
      | None => Throw TypeError
      end
    else OK (Obj.version arg) in
  let depth := VBuf (integerAsSingleByteBuffer (toInteger (Obj.depth arg))) in
  let parentFingerPrint :=
    if isNumber (Obj.parentFingerPrint arg)
    then VBuf (integerAsBuffer (toInteger (Obj.parentFingerPrint arg)))
    else Obj.parentFingerPrint arg in
  let childIndex :=
    if isNumber (Obj.childIndex arg)
    then VBuf (integerAsBuffer (toInteger (Obj.childIndex arg)))
    else Obj.childIndex arg in
  let! chainCode :=
    match Obj.chainCode arg with
    | VStr s => hexToBuffer_or_throw s
    | v => OK v
    end in
  let! privateKey :=
    match Obj.privateKey arg with
    | VStr s => if isHexa (VStr s) then hexToBuffer_or_throw s else OK (VStr s)
    | v => OK v
    end in
  let checksum :=
    if truthy (Obj.checksum arg)
    then if hasLength (Obj.checksum arg)
         then Obj.checksum arg
         else VBuf (integerAsBuffer (toInteger (Obj.checksum arg)))
    else VUndefined in
  _buildFromBuffers
    {| Obj.network := VUndefined; Obj.version := version; Obj.depth := depth;
       Obj.parentFingerPrint := parentFingerPrint; Obj.childIndex := childIndex;
       Obj.chainCode := chainCode; Obj.privateKey := privateKey;
       Obj.checksum := checksum; Obj.xprivkey := None |}.

Definition _buildFromJson (arg : Data) : Result HDPrivateKey :=
  match JSON_parse arg with
  | Some p => _buildFromObject (props p)
  | None => Throw ForeignError
  end.

Definition _buildFromSerialized (arg : Data) : Result HDPrivateKey :=
  match Base58Check_decode arg with
  | None => Throw ForeignError
  | Some decoded =>
      _buildFromBuffers
        {| Obj.network := VUndefined;
           Obj.version := VBuf (slice VersionStart VersionEnd decoded);
           Obj.depth := VBuf (slice DepthStart DepthEnd decoded);
           Obj.parentFingerPrint :=
             VBuf (slice ParentFingerPrintStart ParentFingerPrintEnd decoded);
           Obj.childIndex := VBuf (slice ChildIndexStart ChildIndexEnd decoded);
           Obj.chainCode := VBuf (slice ChainCodeStart ChainCodeEnd decoded);
           Obj.privateKey := VBuf (slice PrivateKeyStart PrivateKeyEnd decoded);
           Obj.checksum := VBuf (slice ChecksumStart ChecksumEnd decoded);
           Obj.xprivkey := Some arg |}
  end.

(** The constructor, open in what the falsy branch returns: [fromSeed]
    calls the constructor on an object literal, and the constructor calls
    [fromSeed] through [_generateRandomly]. *)
Definition HDPrivateKey_ (generated : Result HDPrivateKey) (arg : Arg) : Result HDPrivateKey :=
  match arg with
  | AKey k => OK k
  | AObj o => _buildFromObject o
  | AVal v =>
      if truthy v then
        match asData v with
        | Some d =>
            if isValidSerialized v VUndefined then _buildFromSerialized d
            else if truthyP (isValidJson d) then _buildFromJson d
            else match getSerializedError v VUndefined with
                 | Some e => Throw e
                 | None => Throw ForeignError
                 end
        | None =>
            if isObject v then _buildFromObject (props (PVal v))
            else Throw UnrecognizedArgument
        end
      else generated
  end.

Definition fromSeed (hexa network : Val) : Result HDPrivateKey :=
  let! hexa :=
    match hexa with
    | VStr s => if isHexaString (VStr s) then hexToBuffer_or_throw s else OK (VStr s)
    | v => OK v
    end in
  match hexa with
  | VBuf b =>
      if Qlt_b (inject_Z (Z.of_nat (length b))) (MINIMUM_ENTROPY_BITS * BITS_TO_BYTES)
      then Throw NotEnoughEntropy
      else if Qlt_b (MAXIMUM_ENTROPY_BITS * BITS_TO_BYTES) (inject_Z (Z.of_nat (length b)))
      then Throw TooMuchEntropy
      else
        let hash := Hash_sha512hmac b (list_byte_of_string "Bitcoin seed") in
        HDPrivateKey_ (Throw ForeignError)
          (AObj {| Obj.network := VNet (default Network_livenet (Network_get network));
                   Obj.version := VUndefined;
                   Obj.depth := VNum (Int 0);
                   Obj.parentFingerPrint := VNum (Int 0);
                   Obj.childIndex := VNum (Int 0);
                   Obj.chainCode := VBuf (slice 32 64 hash);
                   Obj.privateKey := VBuf (slice 0 32 hash);
                   Obj.checksum := VUndefined;
                   Obj.xprivkey := None |})
  | _ => Throw InvalidEntropyArgument
  end.

Definition _generateRandomly (network : Val) : Result HDPrivateKey :=
  fromSeed (VBuf (Random_getRandomBuffer 64)) network.

(** [new HDPrivateKey(arg)] *)
Definition new_HDPrivateKey (arg : Arg) : Result HDPrivateKey :=
  HDPrivateKey_ (_generateRandomly VUndefined) arg.

(** ** Derivation *)

Definition Num_ge (n : Num) (z : Z) : bool :=
  match n with NaN => false | Int i => z <=? i end.

Definition Num_lt (n : Num) (z : Z) : bool :=
  match n with NaN => false | Int i => i <? z end.

Definition Num_add (n : Num) (z : Z) : Num :=
  match n with NaN => NaN | Int i => Int (i + z) end.

(** The two tests that open [_deriveWithNumber]. *)
Definition normalize (index : Num) (hardened : bool) : Num * bool :=
  let hardened := if Num_ge index Hardened then true else hardened in
  let index := if Num_lt index Hardened && hardened then Num_add index Hardened else index in
  (index, hardened).

Definition networkVal (n : option Network.t) : Val :=
  match n with
  | Some n => VNet n
  | None => VUndefined
  end.

(** The data fed to the HMAC. *)
Definition derivationData (this : HDPrivateKey) (index : Num) (hardened : bool) : bytes :=
  let indexBuffer := integerAsBuffer (toInteger (VNum index)) in
  if hardened
  then [x00] ++ PrivateKey_toBuffer (privateKey this) ++ indexBuffer
  else publicKey this ++ indexBuffer.

(** [_deriveWithNumber] from the computation of [indexBuffer] to
    [new HDPrivateKey], on an index and a flag already normalized. *)
Definition deriveChild (this : HDPrivateKey) (index : Num) (hardened : bool) : Result HDPrivateKey :=
  let data := derivationData this index hardened in
  let hash := Hash_sha512hmac data (Buffers.chainCode (_buffers this)) in
  let leftPart := be2Z (slice 0 32 hash) in
  let chainCode := slice 32 64 hash in
  let privateKey := BN_toBuffer32 ((leftPart + privateKey this) mod Point_getN) in
  new_HDPrivateKey
    (AObj {| Obj.network := networkVal (network this);
             Obj.version := VUndefined;
             Obj.depth := VNum (Int (depth this + 1));
             Obj.parentFingerPrint := VBuf (fingerPrint this);
             Obj.childIndex := VNum index;
             Obj.chainCode := VBuf chainCode;
             Obj.privateKey := VBuf privateKey;
             Obj.checksum := VUndefined;
             Obj.xprivkey := None |}).

(** Computations that read and write the store and may throw.  The
    [hardened] argument is modelled by its truth value, in the tests and in
    the key of the store. *)
Definition M (A : Type) : Type := Cache -> Result A * Cache.

Definition ret {A} (a : A) : M A := fun c => (OK a, c).
Definition throw {A} (e : ErrorKind) : M A := fun c => (Throw e, c).
Definition bindM {A B} (m : M A) (f : A -> M B) : M B :=
  fun c => match m c with
           | (OK a, c') => f a c'
           | (Throw e, c') => (Throw e, c')
           end.

Definition _deriveWithNumber (this : HDPrivateKey) (index : Num) (hardened : bool) : M HDPrivateKey :=
  fun cache =>
    let '(index, hardened) := normalize index hardened in
    match cache !! (xprivkey this, index, hardened) with
    | Some cached => (OK cached, cache)
    | None =>
        match deriveChild this index hardened with
        | OK derived => (OK derived, <[(xprivkey this, index, hardened) := derived]> cache)
        | Throw e => (Throw e, cache)
        end
    end.

(** One turn of the loop of [_deriveFromString]. *)
Definition deriveStep (result : HDPrivateKey) (step : string) : M HDPrivateKey :=
  let index := parseInt step in
  let hardened := negb (String.eqb step (Num_toString index)) in
  _deriveWithNumber result index hardened.

Fixpoint deriveSteps (result : HDPrivateKey) (steps : list string) : M HDPrivateKey :=
  match steps with
  | [] => ret result
  | step :: steps' => bindM (deriveStep result step) (fun r => deriveSteps r steps')
  end.

Definition _deriveFromString (this : HDPrivateKey) (path : string) : M HDPrivateKey :=
  let steps := split "/" path in
  if contains RootElementAlias path then ret this
  else if negb (match steps with s0 :: _ => contains RootElementAlias s0 | [] => false end)
  then throw InvalidPath
  else deriveSteps this (tail steps).

Definition derive (this : HDPrivateKey) (arg : Val) (hardened : bool) : M HDPrivateKey :=
  match arg with
  | VNum n => _deriveWithNumber this n hardened
  | VStr s => _deriveFromString this s
  | _ => throw InvalidDerivationArgument
  end.

End HDPrivateKey.

(** * Properties *)

(** ** Bytes *)

Lemma byteZ_range (b : byte) : 0 <= byteZ b < 256.
Proof. unfold byteZ. pose proof (Byte.to_N_bounded b). lia. Qed.

Lemma byteZ_Zbyte (z : Z) : byteZ (Zbyte z) = z mod 256.
Proof.
  unfold byteZ, Zbyte.
  assert (Hland : Z.land z 255 = z mod 256) by (apply (Z.land_ones z 8); lia).
  rewrite Hland.
  pose proof (Z.mod_pos_bound z 256 ltac:(lia)) as Hm.
  destruct (Byte.of_N (Z.to_N (z mod 256))) as [b|] eqn:Hof.
  - cbn. apply Byte.to_of_N in Hof. rewrite Hof. lia.
  - exfalso. apply Byte.of_N_None_iff in Hof. lia.
Qed.

Lemma Zbyte_byteZ (b : byte) : Zbyte (byteZ b) = b.
Proof.
  unfold byteZ, Zbyte.
  assert (Hland : Z.land (Z.of_N (Byte.to_N b)) 255 = Z.of_N (Byte.to_N b)).
  { pose proof (byteZ_range b) as Hr. unfold byteZ in Hr.
    rewrite (Z.land_ones _ 8) by lia. apply Z.mod_small. lia. }
  rewrite Hland, N2Z.id, Byte.of_to_N. reflexivity.
Qed.

Lemma be2Z_snoc (b : bytes) (x : byte) : be2Z (b ++ [x]) = be2Z b * 256 + byteZ x.
Proof. unfold be2Z. rewrite fold_left_app. reflexivity. Qed.

Lemma be2Z_range (b : bytes) : 0 <= be2Z b < 256 ^ Z.of_nat (length b).
Proof.
  induction b as [|x b IH] using rev_ind.
  - cbn. lia.
  - rewrite be2Z_snoc, length_app. cbn [length].
    replace (Z.of_nat (length b + 1)) with (Z.succ (Z.of_nat (length b))) by lia.
    rewrite Z.pow_succ_r by lia.
    pose proof (byteZ_range x). lia.
Qed.

Lemma length_Z2be (n : nat) (z : Z) : length (Z2be n z) = n.
Proof.
  revert z. induction n as [|n IH]; intros z; cbn; [reflexivity|].
  rewrite length_app, IH. cbn. lia.
Qed.

Lemma be2Z_Z2be (n : nat) (z : Z) : be2Z (Z2be n z) = z mod 256 ^ Z.of_nat n.
Proof.
  revert z. induction n as [|n IH]; intros z.
  - cbn. rewrite Z.mod_1_r. reflexivity.
  - cbn [Z2be]. rewrite be2Z_snoc, IH, byteZ_Zbyte, Z.shiftr_div_pow2 by lia.
    replace (Z.of_nat (S n)) with (Z.succ (Z.of_nat n)) by lia.
    rewrite Z.pow_succ_r by lia.
    change (2 ^ 8) with 256.
    assert (Hp : 0 < 256 ^ Z.of_nat n) by (apply Z.pow_pos_nonneg; lia).
    rewrite (Z.rem_mul_r z 256 (256 ^ Z.of_nat n)) by lia. lia.
Qed.

Lemma integerAsBuffer_Z2be (z : Z) : integerAsBuffer z = Z2be 4 z.
Proof.
  unfold integerAsBuffer. cbn [Z2be app].
  rewrite !Z.shiftr_shiftr by lia. reflexivity.
Qed.

Lemma length_integerAsBuffer (z : Z) : length (integerAsBuffer z) = 4%nat.
Proof. reflexivity. Qed.

Lemma integerFromBuffer_integerAsBuffer (z : Z) :
  integerFromBuffer (integerAsBuffer z) = z mod 2 ^ 32.
Proof.
  unfold integerFromBuffer.
  rewrite firstn_all2 by (rewrite length_integerAsBuffer; lia).
  rewrite integerAsBuffer_Z2be, be2Z_Z2be. reflexivity.
Qed.

Lemma integerFromSingleByteBuffer_integerAsSingleByteBuffer (z : Z) :
  integerFromSingleByteBuffer (integerAsSingleByteBuffer z) = z mod 256.
Proof.
  unfold integerFromSingleByteBuffer, integerAsSingleByteBuffer. cbn.
  unfold be2Z. cbn. apply byteZ_Zbyte.
Qed.

Lemma length_slice (s e : nat) (b : bytes) :
  (e <= length b)%nat -> length (slice s e b) = (e - s)%nat.
Proof. intros He. unfold slice. rewrite length_take, length_drop. lia. Qed.

(** ** What is assumed of the collaborators *)

Class ExternalsOK (E : Externals) : Prop := {
  (** HMAC-SHA512 returns 64 bytes, hash160 returns 20 *)
  sha512hmac_length : forall data key, length (Hash_sha512hmac data key) = 64%nat;
  sha256ripemd160_length : forall b, length (Hash_sha256ripemd160 b) = 20%nat;
  (** Base58Check decodes what it encoded, encodes inside its alphabet, and
      rejects the empty text (there is no room for a checksum) *)
  decode_encode : forall b, Base58Check_decode (Str (Base58Check_encode b)) = Some b;
  validCharacters_encode : forall b, Base58_validCharacters (Str (Base58Check_encode b)) = true;
  decode_empty : Base58Check_decode (Str "") = None;
  (** the registry answers with registered networks only, finds them by
      their object and by their 32-bit xprivkey version, and knows livenet *)
  network_registered : forall v n, Network_get v = Some n -> Network_get (VNet n) = Some n;
  network_version : forall n,
    Network_get (VNet n) = Some n ->
    Network_get (VNum (Int (Network.xprivkey n))) = Some n /\
    0 <= Network.xprivkey n < 2 ^ 32;
  livenet_registered : Network_get (VNet Network_livenet) = Some Network_livenet;
  (** the order of the curve fits 32 bytes, and a public key is serialized
      compressed, on 33 bytes *)
  curve_order : 0 < Point_getN <= 2 ^ 256;
  publicKey_length : forall z, length (PublicKey_toBuffer z) = 33%nat;
  (** the random source hands out as many bytes as asked *)
  random_length : forall n, length (Random_getRandomBuffer n) = n
}.

(** ** Slices of the serialized layout *)

Lemma slice_app_r (a b : bytes) (s e : nat) :
  (length a <= s)%nat -> slice s e (a ++ b) = slice (s - length a) (e - length a) b.
Proof.
  intros Hs. unfold slice. rewrite drop_app_ge by lia. f_equal. lia.
Qed.

Lemma slice_0_app (a b : bytes) (e : nat) : e = length a -> slice 0 e (a ++ b) = a.
Proof. intros ->. unfold slice. cbn [drop]. rewrite Nat.sub_0_r. apply take_app_length. Qed.

Lemma slice_0_all (a : bytes) (e : nat) : (length a <= e)%nat -> slice 0 e a = a.
Proof. intros He. unfold slice. cbn [drop]. apply take_ge. lia. Qed.

(** The six fields that [_buildFromSerialized] cuts out of a payload. *)
Definition payloadFields (decoded : bytes) : bytes * bytes * bytes * bytes * bytes * bytes :=
  (slice VersionStart VersionEnd decoded,
   slice DepthStart DepthEnd decoded,
   slice ParentFingerPrintStart ParentFingerPrintEnd decoded,
   slice ChildIndexStart ChildIndexEnd decoded,
   slice ChainCodeStart ChainCodeEnd decoded,
   slice PrivateKeyStart PrivateKeyEnd decoded).

Record sized (v d p c cc pk : bytes) : Prop := {
  sized_version : length v = VersionSize;
  sized_depth : length d = DepthSize;
  sized_parentFingerPrint : length p = ParentFingerPrintSize;
  sized_childIndex : length c = ChildIndexSize;
  sized_chainCode : length cc = ChainCodeSize;
  sized_privateKey : length pk = PrivateKeySize
}.

Lemma length_sequence v d p c cc pk :
  sized v d p c cc pk -> length (sequence v d p c cc pk) = DataLength.
Proof.
  intros [Hv Hd Hp Hc Hcc Hpk]. unfold sequence, emptyBuffer.
  rewrite !length_app, Hv, Hd, Hp, Hc, Hcc, Hpk. reflexivity.
Qed.

Lemma payloadFields_layout (decoded : bytes) :
  payloadFields decoded =
  (slice 0 4 decoded, slice 4 5 decoded, slice 5 9 decoded, slice 9 13 decoded,
   slice 13 45 decoded, slice 46 78 decoded).
Proof. reflexivity. Qed.

Ltac skip_field :=
  match goal with
  | |- context [slice ?s ?e (?a ++ ?b)] =>
      rewrite (slice_app_r a b s e) by lia
  end.

Lemma payloadFields_sequence v d p c cc pk :
  sized v d p c cc pk ->
  payloadFields (sequence v d p c cc pk) = (v, d, p, c, cc, pk).
Proof.
  intros [Hv Hd Hp Hc Hcc Hpk].
  unfold VersionSize, DepthSize, ParentFingerPrintSize, ChildIndexSize,
    ChainCodeSize, PrivateKeySize in *.
  rewrite payloadFields_layout. unfold sequence, emptyBuffer.
  repeat apply (f_equal2 pair).
  - apply slice_0_app. now rewrite Hv.
  - skip_field. rewrite Hv. apply slice_0_app. now rewrite Hd.
  - do 2 skip_field. rewrite Hv, Hd. apply slice_0_app. now rewrite Hp.
  - do 3 skip_field. rewrite Hv, Hd, Hp. apply slice_0_app. now rewrite Hc.
  - do 4 skip_field. rewrite Hv, Hd, Hp, Hc. apply slice_0_app. now rewrite Hcc.
  - do 5 skip_field. rewrite Hv, Hd, Hp, Hc, Hcc.
    transitivity (slice 0 32 pk); [reflexivity|].
    apply slice_0_all. now rewrite Hpk.
Qed.

(** ** What the constructor builds *)

Section Construction.
Context {E : Externals}.

(** The key that [_buildFromBuffers] assembles from six checked buffers, a
    checksum and a serialized form. *)
Definition keyOfFields (v d p c cc pk cs : bytes) (xp : Data) : HDPrivateKey :=
  {| _buffers :=
       {| Buffers.version := v; Buffers.depth := d; Buffers.parentFingerPrint := p;
          Buffers.childIndex := c; Buffers.chainCode := cc; Buffers.privateKey := pk;
          Buffers.checksum := cs |};
     xprivkey := xp;
     network := Network_get (VNum (Int (integerFromBuffer v)));
     depth := integerFromSingleByteBuffer d;
     privateKey := be2Z pk;
     publicKey := PublicKey_toBuffer (be2Z pk);
     fingerPrint :=
       slice 0 ParentFingerPrintSize (Hash_sha256ripemd160 (PublicKey_toBuffer (be2Z pk))) |}.

Definition fieldsOf (k : HDPrivateKey) : bytes * bytes * bytes * bytes * bytes * bytes :=
  let b := _buffers k in
  (Buffers.version b, Buffers.depth b, Buffers.parentFingerPrint b,
   Buffers.childIndex b, Buffers.chainCode b, Buffers.privateKey b).

(** A key as the constructor leaves it: its derived properties follow from
    its six buffers, and its serialized form decodes to them. *)
Definition wf (k : HDPrivateKey) : Prop :=
  exists v d p c cc pk cs payload,
    sized v d p c cc pk /\
    k = keyOfFields v d p c cc pk cs (xprivkey k) /\
    Base58Check_decode (xprivkey k) = Some payload /\
    payloadFields payload = (v, d, p, c, cc, pk).

Lemma checkBuffer_inv (buff : Val) (size : nat) (b : bytes) :
  checkBuffer buff size = OK b -> buff = VBuf b /\ length b = size.
Proof.
  unfold checkBuffer. destruct buff; try discriminate.
  destruct (Nat.eqb_spec (length b0) size); [|discriminate].
  intros [= ->]. auto.
Qed.

Lemma checkBuffer_ok (b : bytes) (size : nat) :
  length b = size -> checkBuffer (VBuf b) size = OK b.
Proof. intros <-. unfold checkBuffer. now rewrite Nat.eqb_refl. Qed.

Lemma _buildFromBuffers_inv (o : Obj.t) (k : HDPrivateKey) :
  _buildFromBuffers o = OK k ->
  exists v d p c cc pk cs,
    sized v d p c cc pk /\
    Obj.version o = VBuf v /\ Obj.depth o = VBuf d /\
    Obj.parentFingerPrint o = VBuf p /\ Obj.childIndex o = VBuf c /\
    Obj.chainCode o = VBuf cc /\ Obj.privateKey o = VBuf pk /\
    k = keyOfFields v d p c cc pk cs
          (xprivkeyOr (Obj.xprivkey o) (Base58Check_encode (sequence v d p c cc pk))).
Proof.
  unfold _buildFromBuffers, _validateBufferArguments. intros Hb.
  destruct (checkBuffer (Obj.version o) VersionSize) as [v|] eqn:Hv; [|discriminate].
  destruct (checkBuffer (Obj.depth o) DepthSize) as [d|] eqn:Hd; [|discriminate].
  destruct (checkBuffer (Obj.parentFingerPrint o) ParentFingerPrintSize) as [p|] eqn:Hp;
    [|discriminate].
  destruct (checkBuffer (Obj.childIndex o) ChildIndexSize) as [c|] eqn:Hc; [|discriminate].
  destruct (checkBuffer (Obj.chainCode o) ChainCodeSize) as [cc|] eqn:Hcc; [|discriminate].
  destruct (checkBuffer (Obj.privateKey o) PrivateKeySize) as [pk|] eqn:Hpk; [|discriminate].
  apply checkBuffer_inv in Hv, Hd, Hp, Hc, Hcc, Hpk.
  destruct Hv, Hd, Hp, Hc, Hcc, Hpk.
  cbn [bind] in Hb.
  assert (Hk : exists cs, k = keyOfFields v d p c cc pk cs
             (xprivkeyOr (Obj.xprivkey o) (Base58Check_encode (sequence v d p c cc pk)))).
  { unfold bind in Hb.
    destruct (truthy (Obj.checksum o) && hasLength (Obj.checksum o)).
    - destruct (checkBuffer (Obj.checksum o) CheckSumSize) as [cs|]; [|discriminate].
      cbn in Hb. destruct (negb _); [discriminate|].
      injection Hb as <-. eexists; reflexivity.
    - cbn in Hb. injection Hb as <-. eexists; reflexivity. }
  destruct Hk as [cs ->].
  exists v, d, p, c, cc, pk, cs. repeat split; assumption.
Qed.

Lemma _buildFromBuffers_fresh (n cks : Val) (xp : option Data) (v d p c cc pk : bytes) :
  sized v d p c cc pk ->
  truthy cks && hasLength cks = false ->
  _buildFromBuffers
    {| Obj.network := n; Obj.version := VBuf v; Obj.depth := VBuf d;
       Obj.parentFingerPrint := VBuf p; Obj.childIndex := VBuf c;
       Obj.chainCode := VBuf cc; Obj.privateKey := VBuf pk;
       Obj.checksum := cks; Obj.xprivkey := xp |}
  = OK (keyOfFields v d p c cc pk (Base58Check_checksum (sequence v d p c cc pk))
          (xprivkeyOr xp (Base58Check_encode (sequence v d p c cc pk)))).
Proof.
  intros [Hv Hd Hp Hc Hcc Hpk] Hcks.
  unfold _buildFromBuffers, _validateBufferArguments. cbn [Obj.version Obj.depth
    Obj.parentFingerPrint Obj.childIndex Obj.chainCode Obj.privateKey Obj.checksum
    Obj.xprivkey].
  rewrite !checkBuffer_ok, Hcks by assumption. reflexivity.
Qed.

Lemma wf_keyOfFields v d p c cc pk cs xp payload :
  sized v d p c cc pk ->
  Base58Check_decode xp = Some payload ->
  payloadFields payload = (v, d, p, c, cc, pk) ->
  wf (keyOfFields v d p c cc pk cs xp).
Proof.
  intros Hs Hdec Hf. exists v, d, p, c, cc, pk, cs, payload. auto.
Qed.

(** Two keys with the same serialized form differ at most in the checksum
    they were handed. *)
Lemma wf_same_xprivkey (k1 k2 : HDPrivateKey) :
  wf k1 -> wf k2 -> xprivkey k1 = xprivkey k2 ->
  exists v d p c cc pk cs1 cs2 xp,
    k1 = keyOfFields v d p c cc pk cs1 xp /\ k2 = keyOfFields v d p c cc pk cs2 xp.
Proof.
  intros (v1 & d1 & p1 & c1 & cc1 & pk1 & cs1 & pl1 & _ & Hk1 & Hd1 & Hf1)
         (v2 & d2 & p2 & c2 & cc2 & pk2 & cs2 & pl2 & _ & Hk2 & Hd2 & Hf2) Hxp.
  rewrite Hxp in Hd1, Hk1. rewrite Hd1 in Hd2. injection Hd2 as ->.
  rewrite Hf1 in Hf2. injection Hf2 as <- <- <- <- <- <-.
  exists v1, d1, p1, c1, cc1, pk1, cs1, cs2, (xprivkey k2). auto.
Qed.

End Construction.

Ltac step_bind H :=
  match type of H with
  | bind ?x _ = _ =>
      let Hx := fresh "Hx" in
      destruct x eqn:Hx; cbn [bind] in H; [|discriminate H]
  end.

Section Laws.
Context {E : Externals} {HE : ExternalsOK E}.

Lemma _buildFromBuffers_wf_fresh (o : Obj.t) (k : HDPrivateKey) :
  Obj.xprivkey o = None -> _buildFromBuffers o = OK k -> wf k.
Proof.
  intros Hxp Hb. apply _buildFromBuffers_inv in Hb.
  destruct Hb as (v & d & p & c & cc & pk & cs & Hs & _ & _ & _ & _ & _ & _ & ->).
  rewrite Hxp. cbn [xprivkeyOr].
  eapply wf_keyOfFields; [exact Hs | apply decode_encode | now apply payloadFields_sequence].
Qed.

Lemma _buildFromObject_wf (o : Obj.t) (k : HDPrivateKey) :
  _buildFromObject o = OK k -> wf k.
Proof.
  unfold _buildFromObject. intros Hb.
  do 3 step_bind Hb.
  eapply _buildFromBuffers_wf_fresh; [|exact Hb]. reflexivity.
Qed.

Lemma _buildFromSerialized_wf (arg : Data) (k : HDPrivateKey) :
  _buildFromSerialized arg = OK k -> wf k.
Proof.
  unfold _buildFromSerialized. intros Hb.
  destruct (Base58Check_decode arg) as [decoded|] eqn:Hdec; [|discriminate].
  apply _buildFromBuffers_inv in Hb.
  destruct Hb as (v & d & p & c & cc & pk & cs & Hs & Hv & Hd & Hp & Hc & Hcc & Hpk & ->).
  cbn in Hv, Hd, Hp, Hc, Hcc, Hpk.
  injection Hv as <-. injection Hd as <-. injection Hp as <-.
  injection Hc as <-. injection Hcc as <-. injection Hpk as <-.
  cbn [Obj.xprivkey xprivkeyOr].
  destruct (truthy (ofData arg)).
  - eapply wf_keyOfFields; [exact Hs | exact Hdec | reflexivity].
  - eapply wf_keyOfFields; [exact Hs | apply decode_encode | now apply payloadFields_sequence].
Qed.

Lemma _buildFromJson_wf (arg : Data) (k : HDPrivateKey) :
  _buildFromJson arg = OK k -> wf k.
Proof.
  unfold _buildFromJson. destruct (JSON_parse arg); [|discriminate].
  apply _buildFromObject_wf.
Qed.

Lemma fromSeed_wf (hexa network : Val) (k : HDPrivateKey) :
  fromSeed hexa network = OK k -> wf k.
Proof.
  unfold fromSeed. intros Hb. step_bind Hb.
  destruct a; try discriminate.
  destruct (Qlt_b _ _); [discriminate|]. destruct (Qlt_b _ _); [discriminate|].
  now apply _buildFromObject_wf in Hb.
Qed.

(** Every key that leaves the constructor is well formed, provided a key
    handed in was. *)
Lemma new_HDPrivateKey_wf (arg : Arg) (k : HDPrivateKey) :
  (forall k', arg = AKey k' -> wf k') ->
  new_HDPrivateKey arg = OK k -> wf k.
Proof.
  intros Hkey. unfold new_HDPrivateKey, HDPrivateKey_, _generateRandomly.
  destruct arg as [v|o|k'].
  - destruct (truthy v); [|apply fromSeed_wf].
    destruct (asData v) as [d|].
    + destruct (isValidSerialized v VUndefined); [apply _buildFromSerialized_wf|].
      destruct (truthyP (isValidJson d)); [apply _buildFromJson_wf|].
      destruct (getSerializedError v VUndefined); discriminate.
    + destruct (isObject v); [apply _buildFromObject_wf | discriminate].
  - apply _buildFromObject_wf.
  - intros [= <-]. now apply Hkey.
Qed.

(** The object literals of [fromSeed] and of [_deriveWithNumber]. *)
Definition literal (n : Network.t) (z : Z) (pfp : Val) (index : Num) (cc pk : bytes) : Obj.t :=
  {| Obj.network := VNet n; Obj.version := VUndefined; Obj.depth := VNum (Int z);
     Obj.parentFingerPrint := pfp; Obj.childIndex := VNum index;
     Obj.chainCode := VBuf cc; Obj.privateKey := VBuf pk;
     Obj.checksum := VUndefined; Obj.xprivkey := None |}.

Definition literalKey (n : Network.t) (z : Z) (p : bytes) (index : Num) (cc pk : bytes) : HDPrivateKey :=
  let v := integerAsBuffer (Network.xprivkey n) in
  let d := integerAsSingleByteBuffer z in
  let c := integerAsBuffer (toInteger (VNum index)) in
  keyOfFields v d p c cc pk
    (Base58Check_checksum (sequence v d p c cc pk))
    (Str (Base58Check_encode (sequence v d p c cc pk))).

Lemma _buildFromObject_literal n z pfp p index cc pk :
  Network_get (VNet n) = Some n ->
  (pfp = VBuf p /\ length p = ParentFingerPrintSize \/
   exists m, pfp = VNum m /\ p = integerAsBuffer (toInteger (VNum m))) ->
  length cc = ChainCodeSize -> length pk = PrivateKeySize ->
  _buildFromObject (literal n z pfp index cc pk) = OK (literalKey n z p index cc pk).
Proof.
  intros Hn Hpfp Hcc Hpk. unfold _buildFromObject, literal, literalKey.
  cbn [Obj.network Obj.version Obj.depth Obj.parentFingerPrint Obj.childIndex
       Obj.chainCode Obj.privateKey Obj.checksum truthy isNumber bind toInteger].
  rewrite Hn. cbn [bind].
  assert (Hp : (if isNumber pfp then VBuf (integerAsBuffer (toInteger pfp)) else pfp) = VBuf p
               /\ length p = ParentFingerPrintSize).
  { destruct Hpfp as [[-> Hl]|(m & -> & ->)]; cbn; auto. }
  destruct Hp as [-> Hlp].
  rewrite _buildFromBuffers_fresh; [reflexivity| |reflexivity].
  split; auto.
Qed.

Lemma literalKey_network n z p index cc pk :
  Network_get (VNet n) = Some n ->
  network (literalKey n z p index cc pk) = Some n.
Proof.
  intros Hn. unfold literalKey, keyOfFields. cbn [network].
  destruct (network_version n Hn) as [Hv Hr].
  rewrite integerFromBuffer_integerAsBuffer, Z.mod_small by exact Hr. exact Hv.
Qed.

Lemma literalKey_depth n z p index cc pk :
  depth (literalKey n z p index cc pk) = z mod 256.
Proof. apply integerFromSingleByteBuffer_integerAsSingleByteBuffer. Qed.

End Laws.

(** ** Derivation and the memoization store *)

Section Derivation.
Context {E : Externals} {HE : ExternalsOK E}.

Lemma wf_fingerPrint (k : HDPrivateKey) :
  wf k -> length (fingerPrint k) = ParentFingerPrintSize.
Proof.
  intros (v & d & p & c & cc & pk & cs & pl & _ & -> & _).
  cbn [fingerPrint keyOfFields]. rewrite length_slice; [reflexivity|].
  rewrite sha256ripemd160_length. unfold ParentFingerPrintSize. lia.
Qed.

Lemma wf_depth (k : HDPrivateKey) : wf k -> 0 <= depth k < 256.
Proof.
  intros (v & d & p & c & cc & pk & cs & pl & [_ Hd _ _ _ _] & -> & _).
  cbn [depth keyOfFields]. unfold integerFromSingleByteBuffer.
  pose proof (be2Z_range (take 1 d)) as Hr.
  rewrite length_take, Hd in Hr. exact Hr.
Qed.

Lemma wf_privateKey (k : HDPrivateKey) : wf k -> 0 <= privateKey k < 2 ^ 256.
Proof.
  intros (v & d & p & c & cc & pk & cs & pl & [_ _ _ _ _ Hpk] & -> & _).
  cbn [privateKey keyOfFields].
  pose proof (be2Z_range pk) as Hr. rewrite Hpk in Hr. exact Hr.
Qed.

Lemma wf_publicKey (k : HDPrivateKey) : wf k -> length (publicKey k) = 33%nat.
Proof.
  intros (v & d & p & c & cc & pk & cs & pl & _ & -> & _).
  cbn [publicKey keyOfFields]. apply publicKey_length.
Qed.

Lemma wf_network (k : HDPrivateKey) (n : Network.t) :
  wf k -> network k = Some n -> Network_get (VNet n) = Some n.
Proof.
  intros (v & d & p & c & cc & pk & cs & pl & _ & -> & _).
  cbn [network keyOfFields]. apply network_registered.
Qed.

(** The HMAC of a derivation step. *)
Definition derivationHash (this : HDPrivateKey) (index : Num) (hardened : bool) : bytes :=
  Hash_sha512hmac (derivationData this index hardened) (Buffers.chainCode (_buffers this)).

Definition childScalar (this : HDPrivateKey) (index : Num) (hardened : bool) : Z :=
  (be2Z (slice 0 32 (derivationHash this index hardened)) + privateKey this) mod Point_getN.

Lemma deriveChild_ok (this : HDPrivateKey) (n : Network.t) (index : Num) (hardened : bool) :
  wf this -> network this = Some n ->
  deriveChild this index hardened =
  OK (literalKey n (depth this + 1) (fingerPrint this) index
        (slice 32 64 (derivationHash this index hardened))
        (BN_toBuffer32 (childScalar this index hardened))).
Proof.
  intros Hwf Hn. unfold deriveChild, new_HDPrivateKey, HDPrivateKey_.
  rewrite Hn. cbn [networkVal].
  apply (_buildFromObject_literal n (depth this + 1) (VBuf (fingerPrint this))).
  - now apply (wf_network this).
  - left. split; [reflexivity | now apply wf_fingerPrint].
  - rewrite length_slice; [reflexivity|].
    unfold derivationHash. rewrite sha512hmac_length. lia.
  - apply length_Z2be.
Qed.

(** Without a registered network the child has no version buffer, and the
    assertion of [checkBuffer] fails. *)
Lemma deriveChild_unregistered (this : HDPrivateKey) (index : Num) (hardened : bool) :
  network this = None -> deriveChild this index hardened = Throw AssertionError.
Proof.
  intros Hn. unfold deriveChild, new_HDPrivateKey, HDPrivateKey_, _buildFromObject.
  rewrite Hn. reflexivity.
Qed.

Lemma deriveChild_wf (this k : HDPrivateKey) (index : Num) (hardened : bool) :
  deriveChild this index hardened = OK k -> wf k.
Proof. unfold deriveChild. apply new_HDPrivateKey_wf. discriminate. Qed.

Lemma deriveChild_ext (k1 k2 : HDPrivateKey) (index : Num) (hardened : bool) :
  wf k1 -> wf k2 -> xprivkey k1 = xprivkey k2 ->
  deriveChild k1 index hardened = deriveChild k2 index hardened.
Proof.
  intros H1 H2 Hxp.
  destruct (wf_same_xprivkey k1 k2 H1 H2 Hxp)
    as (v & d & p & c & cc & pk & cs1 & cs2 & xp & -> & ->).
  reflexivity.
Qed.

(** The store holds, for well-formed parents, only what the derivation
    computes. *)
Definition coherent (cache : Cache) : Prop :=
  forall this index hardened k,
    wf this -> cache !! (xprivkey this, index, hardened) = Some k ->
    deriveChild this index hardened = OK k.

Lemma coherent_empty : coherent ∅.
Proof. intros this index hardened k _ Hl. rewrite lookup_empty in Hl. discriminate. Qed.

Lemma coherent_insert (cache : Cache) (this k : HDPrivateKey) (index : Num) (hardened : bool) :
  wf this -> coherent cache -> deriveChild this index hardened = OK k ->
  coherent (<[(xprivkey this, index, hardened) := k]> cache).
Proof.
  intros Hwf Hc Hk this' index' hardened' k' Hwf' Hl.
  destruct (decide ((xprivkey this, index, hardened) = (xprivkey this', index', hardened')))
    as [Heq|Hne].
  - rewrite Heq, lookup_insert_eq in Hl. injection Hl as <-.
    injection Heq as Hxp <- <-.
    rewrite <- Hk. symmetry. now apply deriveChild_ext.
  - rewrite lookup_insert_ne in Hl by exact Hne. now apply (Hc this').
Qed.

(** With a coherent store, [_deriveWithNumber] returns what the derivation
    computes on the normalized index, hit or miss. *)
Lemma _deriveWithNumber_spec (this : HDPrivateKey) (index : Num) (hardened : bool) (cache : Cache) :
  wf this -> coherent cache ->
  fst (_deriveWithNumber this index hardened cache)
    = deriveChild this (fst (normalize index hardened)) (snd (normalize index hardened)) /\
  coherent (snd (_deriveWithNumber this index hardened cache)).
Proof.
  intros Hwf Hc. unfold _deriveWithNumber.
  destruct (normalize index hardened) as [i h]. cbn [fst snd].
  destruct (cache !! (xprivkey this, i, h)) as [cached|] eqn:Hl.
  - cbn [fst snd]. split; [|exact Hc]. symmetry. now apply (Hc this).
  - destruct (deriveChild this i h) as [derived|e] eqn:Hd; cbn [fst snd].
    + split; [reflexivity|]. now apply coherent_insert.
    + split; [reflexivity | exact Hc].
Qed.

(** The loop of [_deriveFromString] without the store. *)
Fixpoint deriveStepsPure (result : HDPrivateKey) (steps : list string) : Result HDPrivateKey :=
  match steps with
  | [] => OK result
  | step :: steps' =>
      let index := parseInt step in
      let hardened := negb (String.eqb step (Num_toString index)) in
      let! r := deriveChild result (fst (normalize index hardened))
                                    (snd (normalize index hardened)) in
      deriveStepsPure r steps'
  end.

Lemma deriveSteps_spec (steps : list string) (this : HDPrivateKey) (cache : Cache) :
  wf this -> coherent cache ->
  fst (deriveSteps this steps cache) = deriveStepsPure this steps /\
  coherent (snd (deriveSteps this steps cache)).
Proof.
  revert this cache. induction steps as [|step steps IH]; intros this cache Hwf Hc.
  - cbn. auto.
  - cbn [deriveSteps deriveStepsPure]. unfold bindM, deriveStep.
    destruct (_deriveWithNumber_spec this (parseInt step)
                (negb (String.eqb step (Num_toString (parseInt step)))) cache Hwf Hc)
      as [Hr Hc'].
    destruct (_deriveWithNumber this _ _ cache) as [[r|e] c'] eqn:Hd;
      cbn [fst snd] in Hr, Hc'; rewrite <- Hr; cbn [bind].
    + apply IH; [|exact Hc']. symmetry in Hr. now apply deriveChild_wf in Hr.
    + cbn. auto.
Qed.

End Derivation.

(** ** The seed *)

(** The two bounds of [fromSeed], 128 * (1/8) and 512 * (1/8), on the
    length of a buffer. *)
Lemma below_minimum (n : nat) :
  Qlt_b (inject_Z (Z.of_nat n)) (MINIMUM_ENTROPY_BITS * BITS_TO_BYTES) = (n <? 16)%nat.
Proof.
  change (Qlt_b (inject_Z (Z.of_nat n)) (MINIMUM_ENTROPY_BITS * BITS_TO_BYTES))
    with (negb (128 <=? Z.of_nat n * 8)).
  destruct (Nat.ltb_spec n 16); destruct (Z.leb_spec 128 (Z.of_nat n * 8));
    (reflexivity || lia).
Qed.

Lemma above_maximum (n : nat) :
  Qlt_b (MAXIMUM_ENTROPY_BITS * BITS_TO_BYTES) (inject_Z (Z.of_nat n)) = (64 <? n)%nat.
Proof.
  change (Qlt_b (MAXIMUM_ENTROPY_BITS * BITS_TO_BYTES) (inject_Z (Z.of_nat n)))
    with (negb (Z.of_nat n * 8 <=? 512)).
  destruct (Nat.ltb_spec 64 n); destruct (Z.leb_spec (Z.of_nat n * 8) 512);
    (reflexivity || lia).
Qed.

Section Seed.
Context {E : Externals} {HE : ExternalsOK E}.

Definition seedHash (entropy : bytes) : bytes :=
  Hash_sha512hmac entropy (list_byte_of_string "Bitcoin seed").

Definition seedNetwork (network : Val) : Network.t :=
  default Network_livenet (Network_get network).

Lemma seedNetwork_registered (network : Val) :
  Network_get (VNet (seedNetwork network)) = Some (seedNetwork network).
Proof.
  unfold seedNetwork. destruct (Network_get network) as [n|] eqn:Hn; cbn [default].
  - now apply (network_registered network).
  - apply livenet_registered.
Qed.

Lemma fromSeed_ok (b : bytes) (network : Val) :
  (16 <= length b <= 64)%nat ->
  fromSeed (VBuf b) network =
  OK (literalKey (seedNetwork network) 0 (integerAsBuffer 0) (Int 0)
        (slice 32 64 (seedHash b)) (slice 0 32 (seedHash b))).
Proof.
  intros Hl. unfold fromSeed. cbn [bind].
  rewrite below_minimum, above_maximum.
  destruct (Nat.ltb_spec (length b) 16) as [Hlt|_]; [lia|].
  destruct (Nat.ltb_spec 64 (length b)) as [Hgt|_]; [lia|].
  unfold HDPrivateKey_.
  apply (_buildFromObject_literal (seedNetwork network) 0 (VNum (Int 0))).
  - apply seedNetwork_registered.
  - right. exists (Int 0). split; reflexivity.
  - rewrite length_slice; [reflexivity|].
    unfold seedHash. rewrite sha512hmac_length. lia.
  - rewrite length_slice; [reflexivity|].
    unfold seedHash. rewrite sha512hmac_length. lia.
Qed.

End Seed.

(** * A small executable instance of the collaborators

    The definitions above compute once the collaborators are given.  This
    instance has the real Base58 alphabet test, the two networks of the
    registry with their xprivkey versions, the order of secp256k1, and
    simple stand-ins of the right shape for the hashes and for the
    Base58Check code (two letters a byte, four checksum bytes). *)

Module Sample.

Definition alphabet : string :=
  "123456789ABCDEFGHJKLMNPQRSTUVWXYZabcdefghijkmnopqrstuvwxyz".

Definition inAlphabet (c : ascii) : bool :=
  existsb (Ascii.eqb c) (list_ascii_of_string alphabet).

Definition validCharacters (d : Data) : bool :=
  match d with
  | Str s => allChars inAlphabet s
  | Buf b => allChars inAlphabet (string_of_list_byte b)
  end.

Definition letters : list ascii := list_ascii_of_string "abcdefghijkmnopq".

Definition letter (n : Z) : ascii := nth (Z.to_nat n) letters "a"%char.

Fixpoint position (c : ascii) (l : list ascii) : option Z :=
  match l with
  | [] => None
  | x :: l' => if Ascii.eqb c x then Some 0 else option_map Z.succ (position c l')
  end.

Fixpoint encodeText (b : bytes) : string :=
  match b with
  | [] => EmptyString
  | x :: b' =>
      String (letter (byteZ x / 16)) (String (letter (byteZ x mod 16)) (encodeText b'))
  end.

Fixpoint decodeText (s : string) : option bytes :=
  match s with
  | EmptyString => Some []
  | String h (String l s') =>
      match position h letters, position l letters, decodeText s' with
      | Some a, Some b, Some r => Some (Zbyte (a * 16 + b) :: r)
      | _, _, _ => None
      end
  | String _ EmptyString => None
  end.

Definition checksum (b : bytes) : bytes := Z2be 4 (be2Z b + Z.of_nat (length b)).

Definition encode (b : bytes) : string := encodeText (b ++ checksum b).

Definition decode (d : Data) : option bytes :=
  match d with
  | Buf _ => None
  | Str s =>
      match decodeText s with
      | Some buf =>
          if (length buf <? 4)%nat then None
          else
            let data := take (length buf - 4) buf in
            let csum := drop (length buf - 4) buf in
            if decide (csum = checksum data) then Some data else None
      | None => None
      end
  end.

Definition sha512hmac (data key : bytes) : bytes :=
  Z2be 64 ((be2Z key * 1000003 + be2Z data + Z.of_nat (length data) + 1) * (2 ^ 509 - 3)).

Definition sha256ripemd160 (b : bytes) : bytes :=
  Z2be 20 (be2Z b * 40503 + Z.of_nat (length b)).

Definition livenet : Network.t := {| Network.name := "livenet"; Network.xprivkey := 0x0488ade4 |}.
Definition testnet : Network.t := {| Network.name := "testnet"; Network.xprivkey := 0x04358394 |}.

Definition get (v : Val) : option Network.t :=
  match v with
  | VStr s =>
      if String.eqb s "livenet" || String.eqb s "mainnet" then Some livenet
      else if String.eqb s "testnet" then Some testnet
      else None
  | VNum (Int z) =>
      if z =? Network.xprivkey livenet then Some livenet
      else if z =? Network.xprivkey testnet then Some testnet
      else None
  | VNet n =>
      if String.eqb (Network.name n) "livenet" && (Network.xprivkey n =? 0x0488ade4)
      then Some livenet
      else if String.eqb (Network.name n) "testnet" && (Network.xprivkey n =? 0x04358394)
      then Some testnet
      else None
  | _ => None
  end.

(** The order of secp256k1. *)
Definition N : Z := 0xFFFFFFFFFFFFFFFFFFFFFFFFFFFFFFFEBAAEDCE6AF48A03BBFD25E8CD0364141.

Definition publicKey (z : Z) : bytes := x02 :: Z2be 32 (z * 3 + 7).

Definition randomBuffer (n : nat) : bytes := replicate n x2a.

Definition parse (d : Data) : option Plain :=
  match d with
  | Str "{}" => Some (PObj Obj.empty)
  | _ => None
  end.

Fixpoint hexBytes (s : string) : option bytes :=
  match s with
  | EmptyString => Some []
  | String h (String l s') =>
      match digitValue 16 h, digitValue 16 l, hexBytes s' with
      | Some a, Some b, Some r => Some (Zbyte (a * 16 + b) :: r)
      | _, _, _ => None
      end
  | String _ EmptyString => None
  end.

Definition externals : Externals :=
  {| Base58_validCharacters := validCharacters;
     Base58Check_decode := decode;
     Base58Check_encode := encode;
     Base58Check_checksum := checksum;
     Hash_sha512hmac := sha512hmac;
     Hash_sha256ripemd160 := sha256ripemd160;
     Network_get := get;
     Network_livenet := livenet;
     Point_getN := N;
     PublicKey_toBuffer := publicKey;
     Random_getRandomBuffer := randomBuffer;
     JSON_parse := parse;
     Buffer_toString := string_of_list_byte;
     ToNumber_text := fun _ => 0;
     hexToBuffer := hexBytes |}.

Lemma decodeText_encodeText (b : bytes) : decodeText (encodeText b) = Some b.
Proof.
  induction b as [|x b IH]; [reflexivity|].
  cbn [encodeText decodeText]. rewrite IH.
  destruct x; reflexivity.
Qed.

Lemma validCharacters_encodeText (b : bytes) : allChars inAlphabet (encodeText b) = true.
Proof.
  induction b as [|x b IH]; [reflexivity|].
  cbn [encodeText allChars]. rewrite IH.
  destruct x; reflexivity.
Qed.

Lemma get_registered (v : Val) (n : Network.t) :
  get v = Some n -> n = livenet \/ n = testnet.
Proof.
  unfold get.
  destruct v as [| | |[|z]|s|b|m]; try discriminate;
    repeat match goal with
           | |- context [if ?c then _ else _] => destruct c
           end; intros [= <-]; auto.
Qed.

Lemma externals_ok : ExternalsOK externals.
Proof.
  constructor;
    cbv [Hash_sha512hmac Hash_sha256ripemd160 Base58Check_decode Base58Check_encode
         Base58_validCharacters Network_get Network_livenet Point_getN
         PublicKey_toBuffer Random_getRandomBuffer externals].
  - intros data key. apply length_Z2be.
  - intros b. apply length_Z2be.
  - intros b. unfold decode, encode. rewrite decodeText_encodeText.
    assert (Hl : length (b ++ checksum b) = (length b + 4)%nat).
    { rewrite length_app. unfold checksum. now rewrite length_Z2be. }
    rewrite Hl.
    destruct (Nat.ltb_spec (length b + 4) 4) as [Hlt|_]; [lia|].
    replace (length b + 4 - 4)%nat with (length b) by lia.
    rewrite take_app_length, drop_app_length.
    destruct (decide (checksum b = checksum b)); [reflexivity | congruence].
  - intros b. apply validCharacters_encodeText.
  - reflexivity.
  - intros v n Hg. destruct (get_registered v n Hg) as [-> | ->]; reflexivity.
  - intros n Hg. destruct (get_registered _ n Hg) as [-> | ->]; cbn; split;
      [reflexivity | lia | reflexivity | lia].
  - reflexivity.
  - unfold N. lia.
  - intros z. unfold publicKey. cbn [length]. now rewrite length_Z2be.
  - intros n. apply length_replicate.
Qed.

End Sample.

(** A master key of the instance, for running the claims below. *)

Definition sampleSeed : bytes := replicate 16 x07.

Definition sampleMaster : HDPrivateKey :=
  @literalKey Sample.externals Sample.livenet 0 (integerAsBuffer 0) (Int 0)
    (slice 32 64 (@seedHash Sample.externals sampleSeed))
    (slice 0 32 (@seedHash Sample.externals sampleSeed)).

Lemma sampleMaster_fromSeed :
  @fromSeed Sample.externals (VBuf sampleSeed) VUndefined = OK sampleMaster.
Proof.
  apply (@fromSeed_ok Sample.externals Sample.externals_ok).
  unfold sampleSeed. rewrite length_replicate. lia.
Qed.

Lemma sampleMaster_wf : @wf Sample.externals sampleMaster.
Proof.
  apply (@fromSeed_wf Sample.externals Sample.externals_ok _ _ _ sampleMaster_fromSeed).
Qed.

(** * The claims *)

(** ** Serialization (C1) *)

Section RoundTrip.
Context {E : Externals} {HE : ExternalsOK E}.

Lemma asData_ofData (s : Data) : asData (ofData s) = Some s.
Proof. now destruct s. Qed.

Lemma valid_inv (s : Data) :
  isValidSerialized (ofData s) VUndefined = true ->
  Base58_validCharacters s = true /\
  exists payload, Base58Check_decode s = Some payload /\ length payload = DataLength.
Proof.
  unfold isValidSerialized, getSerializedError. rewrite asData_ofData.
  destruct (Base58_validCharacters s); [|discriminate]. cbn [negb].
  destruct (Base58Check_decode s) as [payload|]; [|discriminate].
  destruct (Nat.eqb_spec (length payload) DataLength) as [Hl|]; [|discriminate].
  intros _. eauto.
Qed.

Lemma valid_truthy (s : Data) :
  isValidSerialized (ofData s) VUndefined = true -> truthy (ofData s) = true.
Proof.
  intros Hv. destruct (valid_inv s Hv) as (_ & payload & Hdec & _).
  destruct s as [[|c s]|b]; try reflexivity.
  rewrite decode_empty in Hdec. discriminate.
Qed.

Lemma sized_payload (payload : bytes) :
  length payload = DataLength ->
  sized (slice VersionStart VersionEnd payload) (slice DepthStart DepthEnd payload)
        (slice ParentFingerPrintStart ParentFingerPrintEnd payload)
        (slice ChildIndexStart ChildIndexEnd payload)
        (slice ChainCodeStart ChainCodeEnd payload)
        (slice PrivateKeyStart PrivateKeyEnd payload).
Proof.
  intros Hl. unfold DataLength in Hl.
  split; (rewrite length_slice; [reflexivity | rewrite Hl; apply Nat.leb_le; reflexivity]).
Qed.

Lemma _buildFromSerialized_valid (s : Data) (payload : bytes) :
  Base58Check_decode s = Some payload -> length payload = DataLength ->
  truthy (ofData s) = true ->
  exists cs,
    _buildFromSerialized s =
    OK (keyOfFields (slice VersionStart VersionEnd payload)
          (slice DepthStart DepthEnd payload)
          (slice ParentFingerPrintStart ParentFingerPrintEnd payload)
          (slice ChildIndexStart ChildIndexEnd payload)
          (slice ChainCodeStart ChainCodeEnd payload)
          (slice PrivateKeyStart PrivateKeyEnd payload) cs s) /\
    cs = Base58Check_checksum
           (sequence (slice VersionStart VersionEnd payload)
              (slice DepthStart DepthEnd payload)
              (slice ParentFingerPrintStart ParentFingerPrintEnd payload)
              (slice ChildIndexStart ChildIndexEnd payload)
              (slice ChainCodeStart ChainCodeEnd payload)
              (slice PrivateKeyStart PrivateKeyEnd payload)).
Proof.
  intros Hdec Hl Ht. eexists. split; [|reflexivity].
  unfold _buildFromSerialized. rewrite Hdec.
  rewrite _buildFromBuffers_fresh.
  - cbn [xprivkeyOr]. rewrite Ht. reflexivity.
  - now apply sized_payload.
  - cbn [truthy hasLength andb]. unfold slice.
    rewrite drop_ge by (rewrite Hl; apply Nat.leb_le; reflexivity). reflexivity.
Qed.

(** A field bag of buffers, without checksum and without serialized
    form. *)
Definition fieldBag (v d p c cc pk : bytes) : Obj.t :=
  {| Obj.network := VUndefined; Obj.version := VBuf v; Obj.depth := VBuf d;
     Obj.parentFingerPrint := VBuf p; Obj.childIndex := VBuf c;
     Obj.chainCode := VBuf cc; Obj.privateKey := VBuf pk;
     Obj.checksum := VUndefined; Obj.xprivkey := None |}.


End RoundTrip.


(** ** Child derivation (C2, C3, C6) *)

Section DerivationClaims.
Context {E : Externals} {HE : ExternalsOK E}.

Lemma testbit_31 (a : Z) : 0 <= a < 2 ^ 32 -> Z.testbit a 31 = (2 ^ 31 <=? a).
Proof.
  intros Ha. destruct (Z.leb_spec (2 ^ 31) a) as [Hge|Hlt].
  - apply Z.testbit_true; [lia|].
    assert (Hq : a / 2 ^ 31 = 1).
    { symmetry. apply (Z.div_unique a (2 ^ 31) 1 (a - 2 ^ 31)); lia. }
    rewrite Hq. reflexivity.
  - destruct (Z.eq_dec a 0) as [->|Hnz]; [reflexivity|].
    apply Z.bits_above_log2; [lia|].
    apply Z.log2_lt_pow2; lia.
Qed.

Lemma childScalar_range (this : HDPrivateKey) (index : Num) (hardened : bool) :
  0 <= childScalar this index hardened < Point_getN.
Proof. unfold childScalar. apply Z.mod_pos_bound. apply curve_order. Qed.

(** What a successful call of [_deriveWithNumber] returns, hit or miss. *)
Lemma derived_key (this child : HDPrivateKey) (index : Num) (hardened : bool) (cache : Cache) :
  wf this -> coherent cache ->
  fst (_deriveWithNumber this index hardened cache) = OK child ->
  exists n,
    network this = Some n /\
    child = literalKey n (depth this + 1) (fingerPrint this)
              (fst (normalize index hardened))
              (slice 32 64 (derivationHash this (fst (normalize index hardened))
                                                (snd (normalize index hardened))))
              (BN_toBuffer32 (childScalar this (fst (normalize index hardened))
                                               (snd (normalize index hardened)))).
Proof.
  intros Hwf Hc Hd.
  destruct (_deriveWithNumber_spec this index hardened cache Hwf Hc) as [Hr _].
  rewrite Hd in Hr. symmetry in Hr.
  destruct (network this) as [n|] eqn:Hn.
  - exists n. split; [reflexivity|].
    rewrite (deriveChild_ok this n _ _ Hwf Hn) in Hr. now injection Hr as <-.
  - rewrite (deriveChild_unregistered this _ _ Hn) in Hr. discriminate.
Qed.

Lemma literalKey_privateKey n z p index cc (x : Z) :
  0 <= x < Point_getN ->
  privateKey (literalKey n z p index cc (BN_toBuffer32 x)) = x.
Proof.
  intros Hx. unfold literalKey, keyOfFields, BN_toBuffer32. cbn [privateKey].
  rewrite be2Z_Z2be. apply Z.mod_small.
  pose proof curve_order as HN.
  change (256 ^ Z.of_nat 32) with (2 ^ 256). lia.
Qed.




(** At depth 255 the depth byte of the child wraps: whatever the
    collaborators, the child is at depth 0. *)
Lemma derive_child_depth_wraps (this child : HDPrivateKey)
    (index : Num) (hardened : bool) (cache : Cache) :
  wf this -> coherent cache -> depth this = 255 ->
  fst (_deriveWithNumber this index hardened cache) = OK child ->
  depth child = 0.
Proof.
  intros Hwf Hc Hdepth Hd.
  destruct (derived_key this child index hardened cache Hwf Hc Hd) as (n & _ & ->).
  rewrite literalKey_depth, Hdepth. reflexivity.
Qed.

(** Whatever the collaborators, the constructor accepts a private key of 32
    zero bytes. *)
Lemma zero_scalar_accepted (n : Network.t) (z : Z) (index : Num) (cc : bytes) :
  Network_get (VNet n) = Some n -> length cc = ChainCodeSize ->
  exists k,
    new_HDPrivateKey (AObj (literal n z (VNum (Int 0)) index cc (replicate 32 x00))) = OK k /\
    privateKey k = 0.
Proof.
  intros Hn Hcc. eexists. split.
  - unfold new_HDPrivateKey, HDPrivateKey_.
    apply (_buildFromObject_literal n z (VNum (Int 0))); auto.
    right. exists (Int 0). split; reflexivity.
  - reflexivity.
Qed.

End DerivationClaims.




(** A parent at depth 255, on livenet. *)
Definition deepBag : Obj.t :=
  {| Obj.network := VStr "livenet"; Obj.version := VUndefined;
     Obj.depth := VNum (Int 255); Obj.parentFingerPrint := VNum (Int 0);
     Obj.childIndex := VNum (Int 0); Obj.chainCode := VBuf (replicate 32 x01);
     Obj.privateKey := VBuf (replicate 32 x01); Obj.checksum := VUndefined;
     Obj.xprivkey := None |}.


(** A field bag whose private key is zero. *)
Definition zeroBag : Obj.t :=
  {| Obj.network := VStr "livenet"; Obj.version := VUndefined;
     Obj.depth := VNum (Int 0); Obj.parentFingerPrint := VNum (Int 0);
     Obj.childIndex := VNum (Int 0); Obj.chainCode := VBuf (replicate 32 x01);
     Obj.privateKey := VBuf (replicate 32 x00); Obj.checksum := VUndefined;
     Obj.xprivkey := None |}.


(** ** Master key from a seed (C4, C9) *)

Section SeedClaims.
Context {E : Externals} {HE : ExternalsOK E}.

(** C9.  On a byte buffer, [fromSeed] throws NotEnoughEntropy below 16
    bytes, throws TooMuchEntropy above 64 bytes, and returns a key for every
    length from 16 to 64; on an input that is neither a buffer nor a hex
    string it throws InvalidEntropyArgument. *)
Theorem fromSeed_entropy_bounds (b : bytes) (network : Val) :
  ((length b < 16)%nat -> fromSeed (VBuf b) network = Throw NotEnoughEntropy) /\
  ((64 < length b)%nat -> fromSeed (VBuf b) network = Throw TooMuchEntropy) /\
  ((16 <= length b <= 64)%nat -> exists k, fromSeed (VBuf b) network = OK k) /\
  (forall v, isBuffer v = false -> isHexaString v = false ->
     fromSeed v network = Throw InvalidEntropyArgument).
Proof.
  repeat split.
  - intros Hl. unfold fromSeed. cbn [bind]. rewrite below_minimum.
    destruct (Nat.ltb_spec (length b) 16) as [_|Hge]; [reflexivity | lia].
  - intros Hl. unfold fromSeed. cbn [bind]. rewrite below_minimum, above_maximum.
    destruct (Nat.ltb_spec (length b) 16) as [Hlt|_]; [lia|].
    destruct (Nat.ltb_spec 64 (length b)) as [_|Hle]; [reflexivity | lia].
  - intros Hl. eexists. now apply fromSeed_ok.
  - intros v Hb Hh. unfold fromSeed.
    destruct v; try reflexivity; [|discriminate Hb].
    rewrite Hh. reflexivity.
Qed.

(** C4.  For entropy of accepted length, [fromSeed] returns the key whose
    private key is the first half of HMAC-SHA512(key "Bitcoin seed",
    entropy), whose chain code is the second half, with depth 0, parent
    fingerprint 0, child index 0, on the given network or on livenet when
    the registry does not know the argument; a hex string gives the key of
    the buffer it decodes to; and the result is a function of the seed and
    the network. *)
Theorem fromSeed_master (b : bytes) (net : Val) :
  (16 <= length b <= 64)%nat ->
  let H := Hash_sha512hmac b (list_byte_of_string "Bitcoin seed") in
  exists k,
    fromSeed (VBuf b) net = OK k /\
    Buffers.privateKey (_buffers k) = slice 0 32 H /\
    privateKey k = be2Z (slice 0 32 H) /\
    Buffers.chainCode (_buffers k) = slice 32 64 H /\
    depth k = 0 /\
    integerFromBuffer (Buffers.parentFingerPrint (_buffers k)) = 0 /\
    integerFromBuffer (Buffers.childIndex (_buffers k)) = 0 /\
    network k = Some (default Network_livenet (Network_get net)) /\
    (forall s, isHexaString (VStr s) = true -> hexToBuffer s = Some b ->
       fromSeed (VStr s) net = OK k) /\
    (forall k', fromSeed (VBuf b) net = OK k' -> k' = k).
Proof.
  intros Hl H. eexists. split; [now apply fromSeed_ok|].
  repeat split.
  - apply literalKey_network, seedNetwork_registered.
  - intros s Hh Hs. unfold fromSeed at 1.
    rewrite Hh. unfold hexToBuffer_or_throw. rewrite Hs. cbn [bind].
    now apply fromSeed_ok.
  - intros k' Hk'. rewrite fromSeed_ok in Hk' by exact Hl. now injection Hk' as <-.
Qed.

(** On a falsy argument the constructor does return a key: the random
    source hands out 64 bytes, which [fromSeed] accepts. *)
Lemma falsy_argument_succeeds (v : Val) :
  truthy v = false -> exists k, new_HDPrivateKey (AVal v) = OK k.
Proof.
  intros Ht. unfold new_HDPrivateKey, HDPrivateKey_, _generateRandomly.
  rewrite Ht. eexists. apply fromSeed_ok. rewrite random_length. lia.
Qed.

End SeedClaims.

Lemma fromSeed_entropy_bounds_witness :
  exists k, @fromSeed Sample.externals (VBuf (replicate 16 x00)) VUndefined = OK k.
Proof.
  apply (proj1 (proj2 (proj2 (@fromSeed_entropy_bounds Sample.externals
                                Sample.externals_ok (replicate 16 x00) VUndefined)))).
  cbn. lia.
Defined.

Lemma fromSeed_master_witness :
  exists k,
    @fromSeed Sample.externals (VBuf (replicate 64 x01)) (VStr "testnet") = OK k /\
    depth k = 0 /\ network k = Some Sample.testnet.
Proof.
  destruct (@fromSeed_master Sample.externals Sample.externals_ok
              (replicate 64 x01) (VStr "testnet") ltac:(cbn; lia))
    as (k & Hk & _ & _ & _ & Hd & _ & _ & Hn & _).
  exists k. auto.
Defined.

(** ** Paths (C5) *)

Section PathClaims.
Context {E : Externals} {HE : ExternalsOK E}.

(** The example of the documentation of [derive], as one computation on the
    store. *)
Definition derive_0_1_2h (root : HDPrivateKey) : M HDPrivateKey :=
  bindM (derive root (VNum (Int 0)) false) (fun child_0 =>
  bindM (derive child_0 (VNum (Int 1)) false) (fun child_0_1 =>
  derive child_0_1 (VNum (Int 2)) true)).

Lemma derive_0_1_2h_steps (root : HDPrivateKey) (cache : Cache) :
  derive_0_1_2h root cache = deriveSteps root ["0"; "1"; "2'"]%string cache.
Proof.
  unfold derive_0_1_2h. cbn [deriveSteps derive]. unfold bindM, deriveStep.
  change (parseInt "0") with (Int 0). change (parseInt "1") with (Int 1).
  change (parseInt "2'") with (Int 2).
  change (negb (String.eqb "0" (Num_toString (Int 0)))) with false.
  change (negb (String.eqb "1" (Num_toString (Int 1)))) with false.
  change (negb (String.eqb "2'" (Num_toString (Int 2)))) with true.
  destruct (_deriveWithNumber root (Int 0) false cache) as [[k1|e1] c1]; [|reflexivity].
  destruct (_deriveWithNumber k1 (Int 1) false c1) as [[k2|e2] c2]; [|reflexivity].
  destruct (_deriveWithNumber k2 (Int 2) true c2) as [[k3|e3] c3]; reflexivity.
Qed.

(** C5.  [root.derive(0).derive(1).derive(2, true)] and
    [root.derive("m/0/1/2'")] return the same key (or throw the same error)
    whatever the store holds, provided it is coherent.  In general a path that is a
    root alias returns the key itself; otherwise the path is split on '/',
    a first segment that is no root alias throws InvalidPath, and the
    remaining segments are folded from left to right, each one being the
    numeric [derive] call on its parsed integer, hardened exactly when the
    segment differs from the decimal rendering of that integer. *)
Theorem path_equivalence (root : HDPrivateKey) (c1 c2 : Cache) :
  wf root -> coherent c1 -> coherent c2 ->
  fst (derive root (VStr "m/0/1/2'") false c2) = fst (derive_0_1_2h root c1) /\
  (forall path h c, contains RootElementAlias path = true ->
     derive root (VStr path) h c = (OK root, c)) /\
  (forall path h c s0 rest,
     contains RootElementAlias path = false -> split "/" path = s0 :: rest ->
     (contains RootElementAlias s0 = false ->
        derive root (VStr path) h c = (Throw InvalidPath, c)) /\
     (contains RootElementAlias s0 = true ->
        derive root (VStr path) h c = deriveSteps root rest c)) /\
  (forall k c, deriveSteps k [] c = (OK k, c)) /\
  (forall k step rest c,
     deriveSteps k (step :: rest) c =
     bindM (derive k (VNum (parseInt step))
              (negb (String.eqb step (Num_toString (parseInt step)))))
           (fun r => deriveSteps r rest) c).
Proof.
  intros Hwf Hc1 Hc2.
  assert (Hpath : forall c, derive root (VStr "m/0/1/2'") false c
                            = deriveSteps root ["0"; "1"; "2'"]%string c)
    by reflexivity.
  split.
  { rewrite Hpath, derive_0_1_2h_steps.
    destruct (deriveSteps_spec ["0"; "1"; "2'"]%string root c1 Hwf Hc1) as [-> _].
    destruct (deriveSteps_spec ["0"; "1"; "2'"]%string root c2 Hwf Hc2) as [-> _].
    reflexivity. }
  split.
  { intros path h c Hp. cbn [derive]. unfold _deriveFromString. now rewrite Hp. }
  split.
  { intros path h c s0 rest Hp Hs. cbn [derive]. unfold _deriveFromString.
    rewrite Hp, Hs. cbn [tail]. split; intros ->; reflexivity. }
  split; reflexivity.
Qed.

End PathClaims.

Lemma path_equivalence_witness :
  fst (@derive Sample.externals sampleMaster (VStr "m/0/1/2'") false ∅)
  = fst (@derive_0_1_2h Sample.externals sampleMaster ∅).
Proof.
  exact (proj1 (@path_equivalence Sample.externals Sample.externals_ok sampleMaster ∅ ∅
                  sampleMaster_wf (@coherent_empty Sample.externals)
                  (@coherent_empty Sample.externals))).
Defined.

(** ** Validation of the serialized form (C7) *)

Section Validation.
Context {E : Externals}.

(** C7.  [getSerializedError] reports, in this order: InvalidArgument when
    the input is neither text nor bytes; InvalidB58Char when the Base58
    character test fails; InvalidB58Checksum when Base58Check decoding
    fails; InvalidLength when the payload is not 78 bytes long; with a
    network given, InvalidNetworkArgument when the registry does not know it
    and InvalidNetwork when the version field differs from its xprivkey
    version; otherwise null.  [isValidSerialized] holds exactly when
    [getSerializedError] is null. *)
Theorem getSerializedError_order (data network : Val) :
  (asData data = None ->
     getSerializedError data network = Some InvalidArgument) /\
  (forall d, asData data = Some d ->
     (Base58_validCharacters d = false ->
        getSerializedError data network = Some InvalidB58Char) /\
     (Base58_validCharacters d = true -> Base58Check_decode d = None ->
        getSerializedError data network = Some InvalidB58Checksum) /\
     (forall payload,
        Base58_validCharacters d = true -> Base58Check_decode d = Some payload ->
        (length payload <> 78%nat ->
           getSerializedError data network = Some InvalidLength) /\
        (length payload = 78%nat ->
           (network = VUndefined -> getSerializedError data network = None) /\
           (network <> VUndefined ->
              (Network_get network = None ->
                 getSerializedError data network = Some InvalidNetworkArgument) /\
              (forall n, Network_get network = Some n ->
                 (integerFromBuffer (slice 0 4 payload) <> Network.xprivkey n ->
                    getSerializedError data network = Some InvalidNetwork) /\
                 (integerFromBuffer (slice 0 4 payload) = Network.xprivkey n ->
                    getSerializedError data network = None)))))) /\
  (isValidSerialized data network = true <-> getSerializedError data network = None).
Proof.
  split; [|split].
  - intros Hd. unfold getSerializedError. now rewrite Hd.
  - intros d Hd. unfold getSerializedError. rewrite Hd.
    split; [|split].
    + intros ->. reflexivity.
    + intros -> ->. reflexivity.
    + intros payload -> ->. cbn [negb]. unfold DataLength.
      split.
      * intros Hl. apply Nat.eqb_neq in Hl. now rewrite Hl.
      * intros Hl. apply Nat.eqb_eq in Hl. rewrite Hl. cbn [negb].
        split; [intros ->; reflexivity|].
        intros Hn. assert (Hu : isUndefined network = false) by (now destruct network).
        rewrite Hu. cbn [negb]. unfold _validateNetwork.
        split; [intros ->; reflexivity|].
        intros n ->. split; intros Hv.
        -- apply Z.eqb_neq in Hv. now rewrite Hv.
        -- apply Z.eqb_eq in Hv. now rewrite Hv.
  - unfold isValidSerialized. destruct (getSerializedError data network); split;
      congruence.
Qed.

End Validation.

(** ** Dispatch in the constructor (C8, C10) *)

Section Dispatch.
Context {E : Externals}.

Lemma checkBuffer_throws (buff : Val) (size : nat) (e : ErrorKind) :
  checkBuffer buff size = Throw e -> e = AssertionError.
Proof.
  unfold checkBuffer. destruct buff; try (intros [= <-]; reflexivity).
  destruct (_ =? _)%nat; [discriminate | intros [= <-]; reflexivity].
Qed.

Ltac throw_bind H Hx :=
  match type of H with
  | bind ?x _ = Throw _ =>
      destruct x eqn:Hx; cbn [bind] in H; [|injection H as <-]
  end.

Lemma _buildFromBuffers_throws (o : Obj.t) (e : ErrorKind) :
  _buildFromBuffers o = Throw e -> e = AssertionError \/ e = InvalidB58Checksum.
Proof.
  unfold _buildFromBuffers. intros Hb.
  throw_bind Hb Ha.
  - throw_bind Hb Hc; [discriminate|].
    destruct (Checked.checksum a); [|discriminate].
    destruct (negb _); [|discriminate]. injection Hc as <-. auto.
  - left. unfold _validateBufferArguments in Ha.
    throw_bind Ha H1; [|now apply checkBuffer_throws in H1].
    throw_bind Ha H2; [|now apply checkBuffer_throws in H2].
    throw_bind Ha H3; [|now apply checkBuffer_throws in H3].
    throw_bind Ha H4; [|now apply checkBuffer_throws in H4].
    throw_bind Ha H5; [|now apply checkBuffer_throws in H5].
    throw_bind Ha H6; [|now apply checkBuffer_throws in H6].
    throw_bind Ha H7; [discriminate|].
    destruct (_ && _); [|discriminate].
    throw_bind H7 H8; [discriminate|]. now apply checkBuffer_throws in H8.
Qed.

Lemma hexToBuffer_or_throw_throws (s : string) (e : ErrorKind) :
  hexToBuffer_or_throw s = Throw e -> e = ForeignError.
Proof.
  unfold hexToBuffer_or_throw. destruct (hexToBuffer s); [discriminate|].
  now intros [= <-].
Qed.

Lemma _buildFromObject_throws (o : Obj.t) (e : ErrorKind) :
  _buildFromObject o = Throw e -> e <> UnrecognizedArgument.
Proof.
  unfold _buildFromObject. intros Hb.
  throw_bind Hb Hv.
  - throw_bind Hb Hcc.
    + throw_bind Hb Hpk.
      * apply _buildFromBuffers_throws in Hb. destruct Hb as [-> | ->]; discriminate.
      * destruct (Obj.privateKey o); try discriminate.
        destruct (isHexa (VStr s)); [|discriminate].
        apply hexToBuffer_or_throw_throws in Hpk. now subst.
    + destruct (Obj.chainCode o); try discriminate.
      apply hexToBuffer_or_throw_throws in Hcc. now subst.
  - destruct (truthy (Obj.network o)); [|discriminate].
    destruct (Network_get (Obj.network o)); [discriminate|].
    now injection Hv as <-.
Qed.

Lemma fromSeed_throws (hexa net : Val) (e : ErrorKind) :
  fromSeed hexa net = Throw e -> e <> UnrecognizedArgument.
Proof.
  unfold fromSeed. intros Hb.
  throw_bind Hb Hh.
  - destruct a; try (injection Hb as <-; discriminate).
    destruct (Qlt_b _ _); [injection Hb as <-; discriminate|].
    destruct (Qlt_b _ _); [injection Hb as <-; discriminate|].
    now apply _buildFromObject_throws in Hb.
  - destruct hexa; try discriminate.
    destruct (isHexaString (VStr s)); [|discriminate].
    apply hexToBuffer_or_throw_throws in Hh. now subst.
Qed.

(** The falsy values of the model. *)
Definition falsy : list Val :=
  [VUndefined; VNull; VBool false; VNum (Int 0); VNum NaN; VStr ""].

(** C10.  On every falsy argument (undefined, null, false, 0, NaN, the
    empty string) the constructor returns what [fromSeed] returns on the 64
    bytes drawn from the random source, and it does not throw
    UnrecognizedArgument. *)
Theorem falsy_argument_generates (v : Val) :
  In v falsy ->
  truthy v = false /\
  new_HDPrivateKey (AVal v) = fromSeed (VBuf (Random_getRandomBuffer 64)) VUndefined /\
  new_HDPrivateKey (AVal v) <> Throw UnrecognizedArgument.
Proof.
  intros Hin.
  assert (Ht : truthy v = false).
  { cbn in Hin. repeat destruct Hin as [<- | Hin]; try reflexivity. contradiction. }
  assert (Hnew : new_HDPrivateKey (AVal v)
                 = fromSeed (VBuf (Random_getRandomBuffer 64)) VUndefined).
  { unfold new_HDPrivateKey, HDPrivateKey_. now rewrite Ht. }
  repeat split; [exact Ht | exact Hnew |].
  rewrite Hnew. intros Hthrow. now apply fromSeed_throws in Hthrow.
Qed.

(** C8, as amended.  A truthy string or buffer that neither passes the
    validator of the serialized form nor parses as JSON makes the
    constructor throw the error that [getSerializedError] reports for it,
    which is InvalidB58Char, InvalidB58Checksum or InvalidLength. *)
Theorem unparseable_text_throws_serialized_error (v : Val) (d : Data) :
  asData v = Some d ->
  truthy v = true ->
  isValidSerialized v VUndefined = false ->
  JSON_parse d = None ->
  exists e,
    getSerializedError v VUndefined = Some e /\
    new_HDPrivateKey (AVal v) = Throw e /\
    (e = InvalidB58Char \/ e = InvalidB58Checksum \/ e = InvalidLength).
Proof.
  intros Hd Ht Hv Hj.
  unfold new_HDPrivateKey, HDPrivateKey_. rewrite Ht, Hd, Hv.
  unfold isValidJson. rewrite Hj. cbn [truthyP truthy].
  unfold isValidSerialized in Hv.
  destruct (getSerializedError v VUndefined) as [e|] eqn:He; [|discriminate].
  exists e. repeat split.
  unfold getSerializedError in He. rewrite Hd in He.
  destruct (negb (Base58_validCharacters d)); [injection He as <-; auto|].
  destruct (Base58Check_decode d); [|injection He as <-; auto].
  destruct (negb _); [injection He as <-; auto|].
  discriminate.
Qed.

End Dispatch.

Lemma falsy_argument_generates_witness :
  truthy (VNum (Int 0)) = false /\
  @new_HDPrivateKey Sample.externals (AVal (VNum (Int 0)))
    = @fromSeed Sample.externals (VBuf (Sample.randomBuffer 64)) VUndefined /\
  @new_HDPrivateKey Sample.externals (AVal (VNum (Int 0))) <> Throw UnrecognizedArgument.
Proof.
  apply (@falsy_argument_generates Sample.externals (VNum (Int 0))).
  cbn. auto.
Defined.

(** C8, as stated, fails: the text "hello world" is not a serialized key
    (the space is no Base58 character) and no JSON, and the constructor
    throws InvalidB58Char for it. *)
Lemma unparseable_text_counterexample :
  asData (VStr "hello world") = Some (Str "hello world") /\
  @isValidSerialized Sample.externals (VStr "hello world") VUndefined = false /\
  @JSON_parse Sample.externals (Str "hello world") = None /\
  @new_HDPrivateKey Sample.externals (AVal (VStr "hello world")) = Throw InvalidB58Char /\
  @new_HDPrivateKey Sample.externals (AVal (VStr "hello world"))
    <> Throw UnrecognizedArgument.
Proof. repeat split. discriminate. Qed.

Lemma unparseable_text_throws_serialized_error_witness :
  exists e,
    @getSerializedError Sample.externals (VStr "hello world") VUndefined = Some e /\
    @new_HDPrivateKey Sample.externals (AVal (VStr "hello world")) = Throw e /\
    (e = InvalidB58Char \/ e = InvalidB58Checksum \/ e = InvalidLength).
Proof.
  apply (@unparseable_text_throws_serialized_error Sample.externals
           (VStr "hello world") (Str "hello world")); reflexivity.
Defined.

(** * Further properties of the module *)

(** ** The serialized form of a built key *)

Section SerializedForm.
Context {E : Externals} {HE : ExternalsOK E}.

(** A key built from an object carries the encoding of its own fields. *)
Lemma _buildFromObject_inv (o : Obj.t) (k : HDPrivateKey) :
  _buildFromObject o = OK k ->
  exists v d p c cc pk cs,
    sized v d p c cc pk /\
    k = keyOfFields v d p c cc pk cs (Str (Base58Check_encode (sequence v d p c cc pk))).
Proof.
  unfold _buildFromObject. intros Hb. do 3 step_bind Hb.
  apply _buildFromBuffers_inv in Hb.
  destruct Hb as (v & d & p & c & cc & pk & cs & Hs & _ & _ & _ & _ & _ & _ & ->).
  cbn [Obj.xprivkey xprivkeyOr]. exists v, d, p, c, cc, pk, cs. auto.
Qed.

(** The encoding of six sized fields is accepted by the validator, and the
    constructor builds from it the key of these fields. *)
Lemma reload (v d p c cc pk : bytes) :
  sized v d p c cc pk ->
  let s := Str (Base58Check_encode (sequence v d p c cc pk)) in
  isValidSerialized (ofData s) VUndefined = true /\
  new_HDPrivateKey (AVal (ofData s))
  = OK (keyOfFields v d p c cc pk (Base58Check_checksum (sequence v d p c cc pk)) s).
Proof.
  intros Hs s.
  assert (Hv : isValidSerialized (ofData s) VUndefined = true).
  { unfold isValidSerialized, getSerializedError, s. cbn [ofData asData].
    rewrite validCharacters_encode, decode_encode. cbn [negb].
    rewrite (length_sequence _ _ _ _ _ _ Hs), Nat.eqb_refl. reflexivity. }
  split; [exact Hv|].
  destruct (_buildFromSerialized_valid s (sequence v d p c cc pk)) as (cs & Hk & ->).
  { apply decode_encode. }
  { now apply length_sequence. }
  { now apply valid_truthy. }
  pose proof (payloadFields_sequence v d p c cc pk Hs) as Hf.
  unfold payloadFields in Hf. injection Hf as Hv' Hd' Hp' Hc' Hcc' Hpk'.
  rewrite Hv', Hd', Hp', Hc', Hcc', Hpk' in Hk.
  unfold new_HDPrivateKey, HDPrivateKey_.
  now rewrite (valid_truthy s Hv), asData_ofData, Hv.
Qed.

(** The ways through the constructor that end in a key. *)
Lemma new_HDPrivateKey_paths (arg : Arg) (k : HDPrivateKey) :
  (forall k', arg <> AKey k') ->
  new_HDPrivateKey arg = OK k ->
  (exists o, _buildFromObject o = OK k) \/
  (exists d, isValidSerialized (ofData d) VUndefined = true /\
             truthy (ofData d) = true /\ _buildFromSerialized d = OK k).
Proof.
  intros Hkey. unfold new_HDPrivateKey, HDPrivateKey_, _generateRandomly.
  destruct arg as [v|o|k'].
  - destruct (truthy v) eqn:Ht.
    + destruct (asData v) as [d|] eqn:Hd.
      * assert (Hv : v = ofData d) by (destruct v; try discriminate; now injection Hd as <-).
        subst v.
        destruct (isValidSerialized (ofData d) VUndefined) eqn:Hval; [right; eauto|].
        destruct (truthyP (isValidJson d)).
        -- unfold _buildFromJson. destruct (JSON_parse d); [left; eauto | discriminate].
        -- destruct (getSerializedError (ofData d) VUndefined); discriminate.
      * destruct (isObject v); [left; eauto | discriminate].
    + unfold fromSeed. cbn [bind]. rewrite below_minimum, above_maximum.
      destruct (_ <? _)%nat; [discriminate|]. destruct (_ <? _)%nat; [discriminate|].
      unfold HDPrivateKey_. left; eauto.
  - left; eauto.
  - now destruct (Hkey k').
Qed.

(** X1 (invariant).  Whatever the constructor was given (a serialized text,
    JSON, an object, nothing), the key it returns has a serialized form that
    [isValidSerialized] accepts, and the constructor builds from that form a
    key with the same six buffers, the same serialized form and the same
    derived properties. *)
Theorem built_key_reloads (arg : Arg) (k : HDPrivateKey) :
  (forall k', arg <> AKey k') ->
  new_HDPrivateKey arg = OK k ->
  isValidSerialized (ofData (xprivkey k)) VUndefined = true /\
  exists k',
    new_HDPrivateKey (AVal (ofData (xprivkey k))) = OK k' /\
    fieldsOf k' = fieldsOf k /\ xprivkey k' = xprivkey k /\
    network k' = network k /\ depth k' = depth k /\ privateKey k' = privateKey k /\
    publicKey k' = publicKey k /\ fingerPrint k' = fingerPrint k.
Proof.
  intros Hkey Hk.
  destruct (new_HDPrivateKey_paths arg k Hkey Hk) as [(o & Ho)|(d & Hv & Ht & Hd)].
  - apply _buildFromObject_inv in Ho.
    destruct Ho as (v & d & p & c & cc & pk & cs & Hs & ->).
    destruct (reload v d p c cc pk Hs) as [Hv Hn].
    cbn [xprivkey keyOfFields]. split; [exact Hv|].
    eexists. split; [exact Hn|]. repeat split.
  - destruct (valid_inv d Hv) as (_ & payload & Hdec & Hl).
    destruct (_buildFromSerialized_valid d payload Hdec Hl Ht) as (cs & Hk' & _).
    rewrite Hd in Hk'. injection Hk' as ->.
    cbn [xprivkey keyOfFields]. split; [exact Hv|].
    eexists. split; [|repeat split].
    unfold new_HDPrivateKey, HDPrivateKey_. now rewrite Ht, asData_ofData, Hv.
Qed.

(** X2.  A key built from an object that names its network serializes to a
    text that validates against that network, fails with InvalidNetwork
    against a registered network of another xprivkey version, and with
    InvalidNetworkArgument against an argument the registry does not
    know. *)
Theorem serialized_form_network (o : Obj.t) (n : Network.t) (k : HDPrivateKey) :
  truthy (Obj.network o) = true ->
  Network_get (Obj.network o) = Some n ->
  _buildFromObject o = OK k ->
  isValidSerialized (ofData (xprivkey k)) (VNet n) = true /\
  (forall nv n', nv <> VUndefined -> Network_get nv = Some n' ->
     Network.xprivkey n' <> Network.xprivkey n ->
     getSerializedError (ofData (xprivkey k)) nv = Some InvalidNetwork) /\
  (forall nv, nv <> VUndefined -> Network_get nv = None ->
     getSerializedError (ofData (xprivkey k)) nv = Some InvalidNetworkArgument).
Proof.
  intros Ht Hn Hk.
  assert (Hreg : Network_get (VNet n) = Some n) by now apply (network_registered (Obj.network o)).
  destruct (network_version n Hreg) as [_ Hrange].
  unfold _buildFromObject in Hk. rewrite Ht, Hn in Hk. cbn [bind] in Hk.
  do 2 step_bind Hk.
  apply _buildFromBuffers_inv in Hk.
  destruct Hk as (v & d & p & c & cc & pk & cs & Hs & Hv & _ & _ & _ & _ & _ & ->).
  cbn [Obj.version] in Hv. injection Hv as <-.
  cbn [Obj.xprivkey xprivkeyOr xprivkey keyOfFields ofData].
  set (payload := sequence (integerAsBuffer (Network.xprivkey n)) d p c cc pk).
  assert (Hversion : integerFromBuffer (slice 0 4 payload) = Network.xprivkey n).
  { pose proof (payloadFields_sequence _ _ _ _ _ _ Hs) as Hf.
    rewrite payloadFields_layout in Hf. fold payload in Hf.
    apply (f_equal (fun t => fst (fst (fst (fst (fst t)))))) in Hf. cbn [fst] in Hf.
    rewrite Hf, integerFromBuffer_integerAsBuffer. now apply Z.mod_small. }
  assert (Herr : forall nv, nv <> VUndefined ->
            getSerializedError (VStr (Base58Check_encode payload)) nv
            = _validateNetwork payload nv).
  { intros nv Hnv. unfold getSerializedError. cbn [asData].
    rewrite validCharacters_encode, decode_encode. cbn [negb].
    unfold payload at 1. rewrite (length_sequence _ _ _ _ _ _ Hs), Nat.eqb_refl.
    cbn [negb]. assert (Hu : isUndefined nv = false) by now destruct nv.
    rewrite Hu. cbn [negb]. now destruct (_validateNetwork payload nv). }
  split; [|split].
  - unfold isValidSerialized. rewrite Herr by discriminate.
    unfold _validateNetwork. rewrite Hreg, Hversion, Z.eqb_refl. reflexivity.
  - intros nv n' Hnv Hn' Hne. rewrite Herr by exact Hnv.
    unfold _validateNetwork. rewrite Hn', Hversion.
    destruct (Z.eqb_spec (Network.xprivkey n) (Network.xprivkey n')); [congruence|].
    reflexivity.
  - intros nv Hnv Hnone. rewrite Herr by exact Hnv.
    unfold _validateNetwork. now rewrite Hnone.
Qed.

End SerializedForm.

Section SerializedFormAny.
Context {E : Externals}.

(** X3.  Validation against a network is stricter than validation without:
    a text accepted for a network is accepted without one, the registry
    knows that network, and the version field is its xprivkey version. *)
Theorem valid_for_network_is_valid (data net : Val) :
  net <> VUndefined ->
  isValidSerialized data net = true ->
  isValidSerialized data VUndefined = true /\
  exists d payload n,
    asData data = Some d /\ Base58Check_decode d = Some payload /\
    Network_get net = Some n /\
    integerFromBuffer (slice 0 4 payload) = Network.xprivkey n.
Proof.
  intros Hnet. unfold isValidSerialized, getSerializedError.
  destruct (asData data) as [d|] eqn:Hd; [|discriminate].
  destruct (negb (Base58_validCharacters d)); [discriminate|].
  destruct (Base58Check_decode d) as [payload|] eqn:Hdec; [|discriminate].
  destruct (negb _); [discriminate|].
  assert (Hu : isUndefined net = false) by now destruct net.
  rewrite Hu. cbn [negb isUndefined]. unfold _validateNetwork.
  destruct (Network_get net) as [n|] eqn:Hn; [|discriminate].
  destruct (Z.eqb_spec (integerFromBuffer (slice 0 4 payload)) (Network.xprivkey n))
    as [Hv|]; [|discriminate].
  intros _. split; [reflexivity|]. exists d, payload, n. auto.
Qed.

End SerializedFormAny.

(** ** What [_buildFromBuffers] and [_buildFromObject] accept *)

Ltac simpl_checked :=
  cbn [Nat.eqb negb bind Checked.checksum Checked.version Checked.depth
       Checked.parentFingerPrint Checked.childIndex Checked.chainCode
       Checked.privateKey].

Section Building.
Context {E : Externals}.

(** The six fields of an object are buffers of the widths of the layout. *)
Definition fieldsSized (o : Obj.t) : Prop :=
  exists v d p c cc pk,
    sized v d p c cc pk /\
    Obj.version o = VBuf v /\ Obj.depth o = VBuf d /\
    Obj.parentFingerPrint o = VBuf p /\ Obj.childIndex o = VBuf c /\
    Obj.chainCode o = VBuf cc /\ Obj.privateKey o = VBuf pk.

Lemma _validateBufferArguments_outcomes (o : Obj.t) :
  match _validateBufferArguments o with
  | OK _ => fieldsSized o
  | Throw e => e = AssertionError
  end.
Proof.
  unfold _validateBufferArguments.
  destruct (checkBuffer (Obj.version o) VersionSize) as [v|e] eqn:Hv;
    [|now apply checkBuffer_throws in Hv].
  destruct (checkBuffer (Obj.depth o) DepthSize) as [d|e] eqn:Hd;
    [|now apply checkBuffer_throws in Hd].
  destruct (checkBuffer (Obj.parentFingerPrint o) ParentFingerPrintSize) as [p|e] eqn:Hp;
    [|now apply checkBuffer_throws in Hp].
  destruct (checkBuffer (Obj.childIndex o) ChildIndexSize) as [c|e] eqn:Hc;
    [|now apply checkBuffer_throws in Hc].
  destruct (checkBuffer (Obj.chainCode o) ChainCodeSize) as [cc|e] eqn:Hcc;
    [|now apply checkBuffer_throws in Hcc].
  destruct (checkBuffer (Obj.privateKey o) PrivateKeySize) as [pk|e] eqn:Hpk;
    [|now apply checkBuffer_throws in Hpk].
  apply checkBuffer_inv in Hv, Hd, Hp, Hc, Hcc, Hpk.
  destruct Hv, Hd, Hp, Hc, Hcc, Hpk.
  assert (Hf : fieldsSized o).
  { exists v, d, p, c, cc, pk. repeat split; assumption. }
  cbn [bind].
  destruct (truthy (Obj.checksum o) && hasLength (Obj.checksum o)); [|exact Hf].
  destruct (checkBuffer (Obj.checksum o) CheckSumSize) as [cs|e] eqn:Hcs; [exact Hf|].
  now apply checkBuffer_throws in Hcs.
Qed.


(** A field bag of buffers with a checksum handed in. *)
Definition fieldBagWith (v d p c cc pk : bytes) (checksum : Val) : Obj.t :=
  {| Obj.network := VUndefined; Obj.version := VBuf v; Obj.depth := VBuf d;
     Obj.parentFingerPrint := VBuf p; Obj.childIndex := VBuf c;
     Obj.chainCode := VBuf cc; Obj.privateKey := VBuf pk;
     Obj.checksum := checksum; Obj.xprivkey := None |}.


Lemma _buildFromObject_empty : _buildFromObject Obj.empty = Throw AssertionError.
Proof. reflexivity. Qed.

(** X6.  A truthy text that is no valid serialized key goes by what
    JSON.parse makes of it: an object is handed to [_buildFromObject]; a
    truthy primitive (a number, a string, true) has none of the fields and
    fails the assertion on the version buffer; a falsy value (0, null, false,
    the empty string) counts as "no JSON" and the error of
    [getSerializedError] is thrown. *)
Theorem json_text_dispatch (v : Val) (d : Data) :
  asData v = Some d -> truthy v = true ->
  isValidSerialized v VUndefined = false ->
  (forall o, JSON_parse d = Some (PObj o) ->
     new_HDPrivateKey (AVal v) = _buildFromObject o) /\
  (forall w, JSON_parse d = Some (PVal w) -> truthy w = true ->
     new_HDPrivateKey (AVal v) = Throw AssertionError) /\
  (forall w, JSON_parse d = Some (PVal w) -> truthy w = false ->
     exists e, getSerializedError v VUndefined = Some e /\
               new_HDPrivateKey (AVal v) = Throw e).
Proof.
  intros Hd Ht Hv. unfold new_HDPrivateKey, HDPrivateKey_. rewrite Ht, Hd, Hv.
  unfold isValidJson, _buildFromJson.
  split; [|split].
  - intros o ->. reflexivity.
  - intros w -> Hw. cbn [truthyP props]. rewrite Hw. apply _buildFromObject_empty.
  - intros w -> Hw. cbn [truthyP]. rewrite Hw.
    unfold isValidSerialized in Hv.
    destruct (getSerializedError v VUndefined) as [e|]; [eauto | discriminate].
Qed.

(** An object in the form of [toObject]: a network, integers, hex strings. *)
Definition humanBag (nv ver : Val) (z a b : Z) (hc hp : string) : Obj.t :=
  {| Obj.network := nv; Obj.version := ver; Obj.depth := VNum (Int z);
     Obj.parentFingerPrint := VNum (Int a); Obj.childIndex := VNum (Int b);
     Obj.chainCode := VStr hc; Obj.privateKey := VStr hp;
     Obj.checksum := VUndefined; Obj.xprivkey := None |}.

(** X7.  An object that names a network and gives depth, parent fingerprint
    and child index as integers and chain code and private key as hex
    strings builds the key of the corresponding buffers, whatever its
    version field holds; a private key string that is not hexadecimal is
    left as a string and fails the assertion. *)
Theorem _buildFromObject_normalizes (nv ver : Val) (n : Network.t)
    (z a b : Z) (hc hp : string) (cc : bytes) :
  truthy nv = true -> Network_get nv = Some n ->
  hexToBuffer hc = Some cc ->
  (forall pk, isHexa (VStr hp) = true -> hexToBuffer hp = Some pk ->
     _buildFromObject (humanBag nv ver z a b hc hp)
     = _buildFromBuffers
         (fieldBag (integerAsBuffer (Network.xprivkey n)) (integerAsSingleByteBuffer z)
                   (integerAsBuffer a) (integerAsBuffer b) cc pk)) /\
  (isHexa (VStr hp) = false -> length cc = ChainCodeSize ->
     _buildFromObject (humanBag nv ver z a b hc hp) = Throw AssertionError).
Proof.
  intros Ht Hn Hc. split.
  - intros pk Hh Hp. unfold _buildFromObject, humanBag.
    cbn [Obj.network Obj.version Obj.depth Obj.parentFingerPrint Obj.childIndex
         Obj.chainCode Obj.privateKey Obj.checksum].
    rewrite Ht, Hn, Hh. unfold hexToBuffer_or_throw. rewrite Hc, Hp. reflexivity.
  - intros Hh Hl. unfold _buildFromObject, humanBag.
    cbn [Obj.network Obj.version Obj.depth Obj.parentFingerPrint Obj.childIndex
         Obj.chainCode Obj.privateKey Obj.checksum].
    rewrite Ht, Hn, Hh. unfold hexToBuffer_or_throw. rewrite Hc. cbn [bind isNumber truthy].
    unfold _buildFromBuffers, _validateBufferArguments.
    cbn [Obj.version Obj.depth Obj.parentFingerPrint Obj.childIndex Obj.chainCode
         Obj.privateKey].
    rewrite !checkBuffer_ok by (reflexivity || assumption). reflexivity.
Qed.

End Building.

(** ** The memoization store under [derive] *)

Section Store.
Context {E : Externals}.

Lemma _deriveWithNumber_monotone (this : HDPrivateKey) (index : Num) (hardened : bool)
    (cache : Cache) (key : Data * Num * bool) (v : HDPrivateKey) :
  cache !! key = Some v ->
  snd (_deriveWithNumber this index hardened cache) !! key = Some v.
Proof.
  intros Hl. unfold _deriveWithNumber.
  destruct (normalize index hardened) as [i h].
  destruct (cache !! (xprivkey this, i, h)) as [cached|] eqn:Hc; [exact Hl|].
  destruct (deriveChild this i h); [|exact Hl].
  cbn [snd]. rewrite lookup_insert_ne; [exact Hl|]. congruence.
Qed.

Lemma deriveSteps_monotone (steps : list string) (this : HDPrivateKey)
    (cache : Cache) (key : Data * Num * bool) (v : HDPrivateKey) :
  cache !! key = Some v ->
  snd (deriveSteps this steps cache) !! key = Some v.
Proof.
  revert this cache. induction steps as [|step steps IH]; intros this cache Hl;
    [exact Hl|].
  cbn [deriveSteps]. unfold bindM, deriveStep.
  pose proof (_deriveWithNumber_monotone this (parseInt step)
                (negb (String.eqb step (Num_toString (parseInt step)))) cache key v Hl)
    as Hm.
  destruct (_deriveWithNumber this _ _ cache) as [[r|e] c']; cbn [snd] in Hm.
  - now apply IH.
  - exact Hm.
Qed.

(** [derive] only adds to the store: an entry that is there before a call
    is there, unchanged, after it. *)
Lemma derive_store_grows (this : HDPrivateKey) (arg : Val) (hardened : bool)
    (cache : Cache) (key : Data * Num * bool) (v : HDPrivateKey) :
  cache !! key = Some v ->
  snd (derive this arg hardened cache) !! key = Some v.
Proof.
  intros Hl. destruct arg; try exact Hl.
  - now apply _deriveWithNumber_monotone.
  - cbn [derive]. unfold _deriveFromString.
    destruct (contains RootElementAlias s); [exact Hl|].
    destruct (negb _); [exact Hl|].
    now apply deriveSteps_monotone.
Qed.

Lemma _deriveWithNumber_again (this : HDPrivateKey) (index : Num) (hardened : bool)
    (c c1 c' : Cache) (r : Result HDPrivateKey) :
  _deriveWithNumber this index hardened c = (r, c1) ->
  (forall key v, c1 !! key = Some v -> c' !! key = Some v) ->
  (forall e, r = Throw e -> c' = c1) ->
  _deriveWithNumber this index hardened c' = (r, c').
Proof.
  unfold _deriveWithNumber. destruct (normalize index hardened) as [i h].
  intros Hd Hsub Hthrow.
  destruct (c !! (xprivkey this, i, h)) as [cached|] eqn:Hc.
  - injection Hd as <- <-. now rewrite (Hsub _ _ Hc).
  - destruct (deriveChild this i h) as [derived|e] eqn:Hk.
    + injection Hd as <- <-.
      now rewrite (Hsub (xprivkey this, i, h) derived) by apply lookup_insert_eq.
    + injection Hd as <- <-. rewrite (Hthrow e eq_refl), Hc. reflexivity.
Qed.

Lemma deriveSteps_again (steps : list string) (this : HDPrivateKey)
    (c c' : Cache) (r : Result HDPrivateKey) :
  deriveSteps this steps c = (r, c') -> deriveSteps this steps c' = (r, c').
Proof.
  revert this c. induction steps as [|step steps IH]; intros this c.
  - cbn. unfold ret. now intros [= <- <-].
  - cbn [deriveSteps]. unfold bindM, deriveStep. intros Hd.
    destruct (_deriveWithNumber this (parseInt step)
                (negb (String.eqb step (Num_toString (parseInt step)))) c)
      as [[k1|e] c1] eqn:H1.
    + rewrite (_deriveWithNumber_again _ _ _ c c1 c' (OK k1) H1).
      * now apply (IH k1 c1).
      * intros key v Hl. pose proof (deriveSteps_monotone steps k1 c1 key v Hl) as Hm.
        now rewrite Hd in Hm.
      * discriminate.
    + injection Hd as <- <-.
      now rewrite (_deriveWithNumber_again _ _ _ c c1 c1 (Throw e) H1).
Qed.

(** X8.  A [derive] call made again on the store that the first call left
    returns the same key (or throws the same error) and leaves the store as
    it is. *)
Theorem derive_again (this : HDPrivateKey) (arg : Val) (hardened : bool)
    (c c' : Cache) (r : Result HDPrivateKey) :
  derive this arg hardened c = (r, c') -> derive this arg hardened c' = (r, c').
Proof.
  destruct arg; cbn [derive]; unfold throw; try (now intros [= <- <-]).
  - intros Hd. now apply (_deriveWithNumber_again _ _ _ c c').
  - unfold _deriveFromString.
    destruct (contains RootElementAlias s); [unfold ret; now intros [= <- <-]|].
    destruct (negb _); [unfold throw; now intros [= <- <-]|].
    apply deriveSteps_again.
Qed.

(** [s.split("/")] never returns the empty list, and splits a text at a
    slash put between two texts. *)
Lemma split_nonempty (s : string) : split "/" s <> [].
Proof.
  induction s as [|c s IH]; cbn; [discriminate|].
  destruct (Ascii.eqb c "/"); [discriminate|].
  destruct (split "/" s); [contradiction | discriminate].
Qed.

Lemma split_append (p q : string) :
  split "/" (String.append p (String "/" q)) = split "/" p ++ split "/" q.
Proof.
  induction p as [|c p IH]; [reflexivity|].
  change (String.append (String c p) (String "/" q))
    with (String c (String.append p (String "/" q))).
  cbn [split]. rewrite IH.
  destruct (Ascii.eqb c "/"); [reflexivity|].
  destruct (split "/" p) as [|w ws] eqn:Hs; [now destruct (split_nonempty p)|].
  reflexivity.
Qed.

Lemma alias_split (s : string) :
  contains RootElementAlias s = true -> split "/" s = [s].
Proof.
  unfold contains, RootElementAlias. cbn [existsb]. intros Hc.
  repeat (apply orb_prop in Hc; destruct Hc as [Hc|Hc]);
    try discriminate; apply String.eqb_eq in Hc; subst; reflexivity.
Qed.

Lemma deriveSteps_app (l1 l2 : list string) (this : HDPrivateKey) (c : Cache) :
  deriveSteps this (l1 ++ l2) c
  = bindM (deriveSteps this l1) (fun k => deriveSteps k l2) c.
Proof.
  revert this c. induction l1 as [|s l1 IH]; intros this c; [reflexivity|].
  cbn [app deriveSteps]. unfold bindM in *.
  destruct (deriveStep this s c) as [[k|e] c1]; [apply IH | reflexivity].
Qed.

Lemma derive_under_root (k : HDPrivateKey) (q : string) (h : bool) (c : Cache) :
  derive k (VStr (String "m" (String "/" q))) h c = deriveSteps k (split "/" q) c.
Proof.
  cbn [derive]. unfold _deriveFromString.
  destruct (contains RootElementAlias (String "m" (String "/" q))) eqn:Ha.
  - apply alias_split in Ha. change (String "m" (String "/" q))
      with (String.append "m" (String "/" q)) in Ha at 1.
    rewrite split_append in Ha. cbn [split app] in Ha.
    injection Ha as _ Ha. now destruct (split_nonempty q).
  - change (String "m" (String "/" q)) with (String.append "m" (String "/" q)).
    rewrite split_append. reflexivity.
Qed.

(** X9.  Derivation along a path composes: for a path [p] that starts at
    the root, deriving [p/q] is deriving [p] and then, from the key
    obtained, [m/q]; results and stores agree. *)
Theorem path_composition (root : HDPrivateKey) (p q : string) (h : bool) (c : Cache) :
  match split "/" p with
  | s0 :: _ => contains RootElementAlias s0 = true
  | [] => False
  end ->
  derive root (VStr (String.append p (String "/" q))) h c
  = bindM (derive root (VStr p) h)
          (fun k => derive k (VStr (String "m" (String "/" q))) h) c.
Proof.
  intros Hp.
  assert (Hpq : contains RootElementAlias (String.append p (String "/" q)) = false).
  { destruct (contains RootElementAlias _) eqn:Ha; [|reflexivity].
    apply alias_split in Ha. rewrite split_append in Ha.
    destruct (split "/" p) as [|s0 rest]; [contradiction|].
    destruct rest; cbn [app] in Ha; injection Ha as _ Ha;
      [now destruct (split_nonempty q) | discriminate]. }
  cbn [derive]. unfold _deriveFromString at 1. rewrite Hpq, split_append.
  unfold bindM.
  destruct (contains RootElementAlias p) eqn:Ha.
  - rewrite (alias_split p Ha). cbn [app tail]. rewrite Ha. cbn [negb].
    assert (Hroot : _deriveFromString root p c = (OK root, c))
      by (unfold _deriveFromString; now rewrite Ha).
    rewrite Hroot. symmetry. exact (derive_under_root root q h c).
  - destruct (split "/" p) as [|s0 rest] eqn:Hsp; [contradiction|].
    assert (Hsteps : _deriveFromString root p c = deriveSteps root rest c)
      by (unfold _deriveFromString; now rewrite Ha, Hsp, Hp).
    rewrite Hsteps. cbn [app tail]. rewrite Hp. cbn [negb].
    rewrite deriveSteps_app. unfold bindM.
    destruct (deriveSteps root rest c) as [[k|e] c1]; [|reflexivity].
    symmetry. exact (derive_under_root k q h c1).
Qed.

End Store.

(** ** What [derive] returns *)

Section DerivationMore.
Context {E : Externals} {HE : ExternalsOK E}.

Lemma deriveStepsPure_wf (steps : list string) (this k : HDPrivateKey) :
  wf this -> deriveStepsPure this steps = OK k -> wf k.
Proof.
  revert this. induction steps as [|step steps IH]; intros this Hwf.
  - cbn. now intros [= <-].
  - cbn [deriveStepsPure]. intros Hd. step_bind Hd.
    apply (IH a); [now apply deriveChild_wf in Hx | exact Hd].
Qed.

(** X10.  The store does not show in what [derive] returns: on a store that
    holds only derived keys, the result is the one obtained on the empty
    store; the store stays such a store, and the key returned is one the
    constructor built. *)
Theorem derive_cache_transparent (this : HDPrivateKey) (arg : Val) (hardened : bool)
    (cache : Cache) :
  wf this -> coherent cache ->
  fst (derive this arg hardened cache) = fst (derive this arg hardened ∅) /\
  coherent (snd (derive this arg hardened cache)) /\
  (forall k, fst (derive this arg hardened cache) = OK k -> wf k).
Proof.
  intros Hwf Hc.
  destruct arg; cbn [derive]; unfold throw; cbn [fst snd];
    try (split; [reflexivity | split; [exact Hc | discriminate]]).
  - destruct (_deriveWithNumber_spec this n hardened cache Hwf Hc) as [Hr Hc'].
    destruct (_deriveWithNumber_spec this n hardened ∅ Hwf coherent_empty) as [Hr0 _].
    split; [now rewrite Hr, Hr0|]. split; [exact Hc'|].
    intros k Hk. rewrite Hk in Hr. symmetry in Hr. now apply deriveChild_wf in Hr.
  - unfold _deriveFromString.
    destruct (contains RootElementAlias s).
    { unfold ret. cbn [fst snd]. split; [reflexivity|]. split; [exact Hc|].
      now intros k [= <-]. }
    destruct (negb _).
    { unfold throw. cbn [fst snd]. split; [reflexivity|]. split; [exact Hc|discriminate]. }
    destruct (deriveSteps_spec (tail (split "/" s)) this cache Hwf Hc) as [Hr Hc'].
    destruct (deriveSteps_spec (tail (split "/" s)) this ∅ Hwf coherent_empty) as [Hr0 _].
    split; [now rewrite Hr, Hr0|]. split; [exact Hc'|].
    intros k Hk. rewrite Hk in Hr. symmetry in Hr. now apply deriveStepsPure_wf in Hr.
Qed.

Lemma deriveStepsPure_total (steps : list string) (root : HDPrivateKey) (n : Network.t) :
  wf root -> network root = Some n ->
  exists k,
    deriveStepsPure root steps = OK k /\ network k = Some n /\
    depth k = (depth root + Z.of_nat (length steps)) mod 256.
Proof.
  revert root. induction steps as [|step steps IH]; intros root Hwf Hn.
  - exists root. split; [reflexivity|]. split; [exact Hn|].
    cbn [length]. rewrite Z.add_0_r. symmetry. apply Z.mod_small. now apply wf_depth.
  - cbn [deriveStepsPure].
    set (i := fst (normalize (parseInt step) _)). set (h := snd (normalize _ _)).
    pose proof (deriveChild_ok root n i h Hwf Hn) as Hd. rewrite Hd. cbn [bind].
    destruct (IH _ (deriveChild_wf _ _ _ _ Hd)) as (k & Hk & Hnk & Hdk).
    { apply literalKey_network. now apply (wf_network root). }
    exists k. split; [exact Hk|]. split; [exact Hnk|].
    rewrite Hdk, literalKey_depth, Z.add_mod_idemp_l by lia.
    f_equal. cbn [length]. lia.
Qed.

(** X11.  From a key on a registered network every numeric derivation
    returns a key, and so does every path whose first segment is a root
    alias, whatever its other segments hold: no segment is ever rejected.
    The key is on the same network, one level deeper for each step, the
    depth being counted modulo 256. *)
Theorem derive_total (root : HDPrivateKey) (n : Network.t) (cache : Cache) :
  wf root -> coherent cache -> network root = Some n ->
  (forall index hardened, exists k,
     fst (derive root (VNum index) hardened cache) = OK k /\
     network k = Some n /\ depth k = (depth root + 1) mod 256) /\
  (forall path hardened s0 rest,
     split "/" path = s0 :: rest -> contains RootElementAlias s0 = true ->
     exists k,
       fst (derive root (VStr path) hardened cache) = OK k /\
       network k = Some n /\
       depth k = (depth root + Z.of_nat (length rest)) mod 256).
Proof.
  intros Hwf Hc Hn. split.
  - intros index hardened. cbn [derive].
    destruct (_deriveWithNumber_spec root index hardened cache Hwf Hc) as [-> _].
    rewrite (deriveChild_ok root n _ _ Hwf Hn). eexists. split; [reflexivity|].
    split; [|apply literalKey_depth].
    apply literalKey_network. now apply (wf_network root).
  - intros path hardened s0 rest Hs Ha. cbn [derive]. unfold _deriveFromString.
    destruct (contains RootElementAlias path) eqn:Hp.
    + rewrite (alias_split path Hp) in Hs. injection Hs as <- <-.
      exists root. split; [reflexivity|]. split; [exact Hn|].
      cbn [length]. rewrite Z.add_0_r. symmetry. apply Z.mod_small. now apply wf_depth.
    + rewrite Hs, Ha. cbn [negb tail].
      destruct (deriveSteps_spec rest root cache Hwf Hc) as [-> _].
      now apply deriveStepsPure_total.
Qed.


(** X13.  The child index stored in a derived key is the normalized index
    modulo 2^32, and the HMAC is computed on the normalized index and flag.
    So a path segment without digits (parsed as NaN, and not the text "NaN")
    gives a hardened child whose stored index is 0, and an index between
    -2^31 and -1 gives a non-hardened child whose stored index has bit 31
    set. *)
Theorem stored_childIndex_wraps (this child : HDPrivateKey) (index : Num)
    (hardened : bool) (cache : Cache) :
  wf this -> coherent cache ->
  fst (_deriveWithNumber this index hardened cache) = OK child ->
  let i := fst (normalize index hardened) in
  let h := snd (normalize index hardened) in
  integerFromBuffer (Buffers.childIndex (_buffers child))
    = toInteger (VNum i) mod 2 ^ 32 /\
  Buffers.chainCode (_buffers child) = slice 32 64 (derivationHash this i h) /\
  (index = NaN -> hardened = true ->
     h = true /\ integerFromBuffer (Buffers.childIndex (_buffers child)) = 0) /\
  (forall j, index = Int j -> hardened = false -> - 2 ^ 31 <= j < 0 ->
     h = false /\
     Z.testbit (integerFromBuffer (Buffers.childIndex (_buffers child))) 31 = true).
Proof.
  intros Hwf Hc Hd i h.
  destruct (derived_key this child index hardened cache Hwf Hc Hd) as (n & _ & ->).
  fold i h. unfold literalKey, keyOfFields. cbn [_buffers Buffers.childIndex Buffers.chainCode].
  rewrite integerFromBuffer_integerAsBuffer.
  split; [reflexivity|]. split; [reflexivity|]. split.
  - intros -> ->. split; reflexivity.
  - intros j -> -> Hj. unfold i, h, normalize, Num_ge, Num_lt, Hardened.
    change 0x80000000 with (2 ^ 31).
    destruct (Z.leb_spec (2 ^ 31) j) as [Hge|_]; [lia|].
    rewrite andb_false_r. cbn [fst snd toInteger]. split; [reflexivity|].
    replace (j mod 2 ^ 32) with (j + 2 ^ 32).
    + rewrite testbit_31 by lia. apply Z.leb_le. lia.
    + apply (Z.mod_unique j (2 ^ 32) (-1)); lia.
Qed.

End DerivationMore.

(** ** The padding byte, and the errors of [fromSeed] *)

Section PaddingAndSeed.
Context {E : Externals} {HE : ExternalsOK E}.

(** The 78 bytes that the fields of a key spell, as [_buildFromBuffers]
    concatenates them. *)
Definition sequenceOf (k : HDPrivateKey) : bytes :=
  let b := _buffers k in
  sequence (Buffers.version b) (Buffers.depth b) (Buffers.parentFingerPrint b)
           (Buffers.childIndex b) (Buffers.chainCode b) (Buffers.privateKey b).

Lemma sequence_payloadFields (payload : bytes) :
  length payload = DataLength ->
  sequence (slice VersionStart VersionEnd payload) (slice DepthStart DepthEnd payload)
           (slice ParentFingerPrintStart ParentFingerPrintEnd payload)
           (slice ChildIndexStart ChildIndexEnd payload)
           (slice ChainCodeStart ChainCodeEnd payload)
           (slice PrivateKeyStart PrivateKeyEnd payload)
  = <[45%nat := x00]> payload.
Proof.
  intros Hl. unfold DataLength in Hl.
  rewrite insert_take_drop by (rewrite Hl; lia).
  change (sequence (slice VersionStart VersionEnd payload) (slice DepthStart DepthEnd payload)
           (slice ParentFingerPrintStart ParentFingerPrintEnd payload)
           (slice ChildIndexStart ChildIndexEnd payload)
           (slice ChainCodeStart ChainCodeEnd payload)
           (slice PrivateKeyStart PrivateKeyEnd payload))
    with (take 4 payload ++ take 1 (drop 4 payload) ++ take 4 (drop 5 payload)
            ++ take 4 (drop 9 payload) ++ take 32 (drop 13 payload)
            ++ [x00] ++ take 32 (drop 46 payload)).
  rewrite !app_assoc.
  rewrite (take_take_drop payload 4 1). cbn [Nat.add].
  rewrite (take_take_drop payload 5 4). cbn [Nat.add].
  rewrite (take_take_drop payload 9 4). cbn [Nat.add].
  rewrite (take_take_drop payload 13 32). cbn [Nat.add].
  rewrite (take_ge (drop 46 payload)) by (rewrite length_drop, Hl; lia).
  rewrite <- app_assoc. reflexivity.
Qed.


(** X15.  [fromSeed] measures a hex string by the bytes it decodes to, not
    by its characters; it throws what the hex decoder throws; and whatever
    the input, it returns a key or throws InvalidEntropyArgument,
    NotEnoughEntropy, TooMuchEntropy or the decoder's error, a key being
    returned only for 16 to 64 bytes. *)
Theorem fromSeed_outcomes (hexa net : Val) :
  (forall s b, hexa = VStr s -> isHexaString (VStr s) = true ->
     hexToBuffer s = Some b -> fromSeed hexa net = fromSeed (VBuf b) net) /\
  (forall s, hexa = VStr s -> isHexaString (VStr s) = true ->
     hexToBuffer s = None -> fromSeed hexa net = Throw ForeignError) /\
  (forall k, fromSeed hexa net = OK k ->
     exists b, (16 <= length b <= 64)%nat /\ fromSeed (VBuf b) net = OK k /\
       (hexa = VBuf b \/
        exists s, hexa = VStr s /\ isHexaString (VStr s) = true /\
                  hexToBuffer s = Some b)) /\
  (forall e, fromSeed hexa net = Throw e ->
     e = InvalidEntropyArgument \/ e = NotEnoughEntropy \/
     e = TooMuchEntropy \/ e = ForeignError).
Proof.
  assert (Hbuf : forall b, (exists k, (16 <= length b <= 64)%nat /\
                                      fromSeed (VBuf b) net = OK k) \/
                           fromSeed (VBuf b) net = Throw NotEnoughEntropy \/
                           fromSeed (VBuf b) net = Throw TooMuchEntropy).
  { intros b.
    destruct (Nat.ltb_spec (length b) 16) as [Hlt|Hge].
    - right. left. unfold fromSeed. cbn [bind]. rewrite below_minimum.
      destruct (Nat.ltb_spec (length b) 16); [reflexivity | lia].
    - destruct (Nat.ltb_spec 64 (length b)) as [Hgt|Hle].
      + right. right. unfold fromSeed. cbn [bind].
        rewrite below_minimum, above_maximum.
        destruct (Nat.ltb_spec (length b) 16); [lia|].
        destruct (Nat.ltb_spec 64 (length b)); [reflexivity | lia].
      + left. eexists. split; [lia|]. apply fromSeed_ok. lia. }
  assert (Hhex : forall s b, isHexaString (VStr s) = true -> hexToBuffer s = Some b ->
                   fromSeed (VStr s) net = fromSeed (VBuf b) net).
  { intros s b Hh Hs. unfold fromSeed at 1. rewrite Hh.
    unfold hexToBuffer_or_throw. rewrite Hs. reflexivity. }
  assert (Hnone : forall s, isHexaString (VStr s) = true -> hexToBuffer s = None ->
                    fromSeed (VStr s) net = Throw ForeignError).
  { intros s Hh Hs. unfold fromSeed. rewrite Hh.
    unfold hexToBuffer_or_throw. rewrite Hs. reflexivity. }
  assert (Hother : forall v, isBuffer v = false -> isHexaString v = false ->
                     fromSeed v net = Throw InvalidEntropyArgument).
  { intros v Hb Hh. unfold fromSeed. destruct v; try reflexivity; [|discriminate Hb].
    rewrite Hh. reflexivity. }
  split; [intros s b ->; apply Hhex|]. split; [intros s ->; apply Hnone|].
  split.
  - intros k Hk. destruct hexa as [| | | |s|b|]; try (rewrite Hother in Hk by reflexivity; discriminate).
    + destruct (isHexaString (VStr s)) eqn:Hh;
        [|rewrite Hother in Hk by (reflexivity || exact Hh); discriminate].
      destruct (hexToBuffer s) as [b|] eqn:Hs;
        [|rewrite Hnone in Hk by assumption; discriminate].
      rewrite (Hhex s b Hh Hs) in Hk.
      destruct (Hbuf b) as [(k' & Hl & Hk')|[Ht|Ht]]; try (rewrite Ht in Hk; discriminate).
      exists b. split; [exact Hl|]. split; [exact Hk|]. right. eauto.
    + destruct (Hbuf b) as [(k' & Hl & Hk')|[Ht|Ht]]; try (rewrite Ht in Hk; discriminate).
      exists b. split; [exact Hl|]. split; [exact Hk|]. now left.
  - intros e He. destruct hexa as [| | | |s|b|];
      try (rewrite Hother in He by reflexivity; injection He as <-; auto).
    + destruct (isHexaString (VStr s)) eqn:Hh;
        [|rewrite Hother in He by (reflexivity || exact Hh); injection He as <-; auto].
      destruct (hexToBuffer s) as [b|] eqn:Hs;
        [|rewrite Hnone in He by assumption; injection He as <-; auto].
      rewrite (Hhex s b Hh Hs) in He.
      destruct (Hbuf b) as [(k' & _ & Hk')|[Ht|Ht]]; rewrite ?Hk', ?Ht in He;
        [discriminate | injection He as <-; auto | injection He as <-; auto].
    + destruct (Hbuf b) as [(k' & _ & Hk')|[Ht|Ht]]; rewrite ?Hk', ?Ht in He;
        [discriminate | injection He as <-; auto | injection He as <-; auto].
Qed.

End PaddingAndSeed.

(** ** [toObject] *)

(** Modelled from the spec: bufferUtil.bufferToHex (lib/util/buffer.js is
    missing) and the hex form of a buffer, [buf.toString('hex')]; two
    lower-case hexadecimal digits a byte. *)
Definition hexDigit (n : Z) : ascii :=
  nth (Z.to_nat n) (list_ascii_of_string "0123456789abcdef") "0"%char.

Fixpoint bufferToHex (b : bytes) : string :=
  match b with
  | [] => EmptyString
  | x :: b' =>
      String (hexDigit (byteZ x / 16)) (String (hexDigit (byteZ x mod 16)) (bufferToHex b'))
  end.

Module KeyObject.
(** The object that [toObject] returns. *)
Record t := {
  network : string;
  depth : Z;
  fingerPrint : Z;
  parentFingerPrint : Z;
  childIndex : Z;
  chainCode : string;
  privateKey : string;
  checksum : Z;
  xprivkey : Data
}.
End KeyObject.

(** The object of [toObject] as the constructor reads it; it has no
    [version], and its [fingerPrint] is not read. *)
Definition asArg (o : KeyObject.t) : Obj.t :=
  {| Obj.network := VStr (KeyObject.network o);
     Obj.version := VUndefined;
     Obj.depth := VNum (Int (KeyObject.depth o));
     Obj.parentFingerPrint := VNum (Int (KeyObject.parentFingerPrint o));
     Obj.childIndex := VNum (Int (KeyObject.childIndex o));
     Obj.chainCode := VStr (KeyObject.chainCode o);
     Obj.privateKey := VStr (KeyObject.privateKey o);
     Obj.checksum := VNum (Int (KeyObject.checksum o));
     Obj.xprivkey := Some (KeyObject.xprivkey o) |}.

Section ToObject.
Context {E : Externals}.

(** [this.toObject()]; reading [name] of a network that the registry does
    not know is a TypeError. *)
Definition toObject (this : HDPrivateKey) : Result KeyObject.t :=
  match Network_get (VNum (Int (integerFromBuffer (Buffers.version (_buffers this))))) with
  | None => Throw TypeError
  | Some n =>
      OK {| KeyObject.network := Network.name n;
            KeyObject.depth := integerFromSingleByteBuffer (Buffers.depth (_buffers this));
            KeyObject.fingerPrint := integerFromBuffer (fingerPrint this);
            KeyObject.parentFingerPrint :=
              integerFromBuffer (Buffers.parentFingerPrint (_buffers this));
            KeyObject.childIndex := integerFromBuffer (Buffers.childIndex (_buffers this));
            KeyObject.chainCode := bufferToHex (Buffers.chainCode (_buffers this));
            KeyObject.privateKey := bufferToHex (PrivateKey_toBuffer (privateKey this));
            KeyObject.checksum := integerFromBuffer (Buffers.checksum (_buffers this));
            KeyObject.xprivkey := xprivkey this |}
  end.

End ToObject.

(** What the object round trip assumes of the collaborators besides
    [ExternalsOK]. *)
Class CodecOK (E : Externals) : Prop := {
  (** hexToBuffer reads back the hex form of a buffer *)
  hexToBuffer_bufferToHex : forall b, hexToBuffer (bufferToHex b) = Some b;
  (** the registry finds a registered network by its name, which is not
      empty *)
  network_name : forall n,
    Network_get (VNet n) = Some n ->
    Network_get (VStr (Network.name n)) = Some n /\ Network.name n <> EmptyString;
  (** a Base58Check checksum has 4 bytes *)
  checksum_length : forall b, length (Base58Check_checksum b) = 4%nat
}.

Lemma Zbyte_low (a : Z) (x : byte) : Zbyte (a * 256 + byteZ x) = x.
Proof.
  rewrite <- (Zbyte_byteZ x) at 2. unfold Zbyte.
  rewrite !(Z.land_ones _ 8) by lia. change (2 ^ 8) with 256.
  now rewrite Z.add_comm, Z.mod_add by lia.
Qed.

Lemma Z2be_be2Z (b : bytes) : Z2be (length b) (be2Z b) = b.
Proof.
  induction b as [|x b IH] using rev_ind; [reflexivity|].
  rewrite length_app, Nat.add_comm. cbn [length Nat.add Z2be].
  rewrite be2Z_snoc, Zbyte_low, Z.shiftr_div_pow2 by lia.
  change (2 ^ 8) with 256.
  rewrite Z.div_add_l by lia.
  rewrite (Z.div_small (byteZ x)) by apply byteZ_range.
  now rewrite Z.add_0_r, IH.
Qed.

Lemma integerAsBuffer_integerFromBuffer (b : bytes) :
  length b = 4%nat -> integerAsBuffer (integerFromBuffer b) = b.
Proof.
  intros Hl. unfold integerFromBuffer. rewrite take_ge by lia.
  rewrite integerAsBuffer_Z2be, <- Hl. apply Z2be_be2Z.
Qed.

Lemma integerAsSingleByteBuffer_integerFromSingleByteBuffer (b : bytes) :
  length b = 1%nat ->
  integerAsSingleByteBuffer (integerFromSingleByteBuffer b) = b.
Proof.
  intros Hl. unfold integerFromSingleByteBuffer. rewrite take_ge by lia.
  change (integerAsSingleByteBuffer (be2Z b)) with (Z2be 1 (be2Z b)).
  rewrite <- Hl. apply Z2be_be2Z.
Qed.

Lemma isHexa_bufferToHex (b : bytes) :
  b <> [] -> isHexa (VStr (bufferToHex b)) = true.
Proof.
  intros Hb. unfold isHexa.
  assert (Hall : allChars isHexaChar (bufferToHex b) = true).
  { clear Hb. induction b as [|x b IH]; [reflexivity|].
    cbn [bufferToHex allChars]. rewrite IH. destruct x; reflexivity. }
  rewrite Hall. destruct b; [contradiction | reflexivity].
Qed.

Section ToObjectRoundTrip.
Context {E : Externals} {HE : ExternalsOK E} {HC : CodecOK E}.

(** A build without a checksum handed in puts the computed one. *)
Lemma _buildFromBuffers_computed (o : Obj.t) (k : HDPrivateKey) :
  truthy (Obj.checksum o) && hasLength (Obj.checksum o) = false ->
  _buildFromBuffers o = OK k ->
  exists v d p c cc pk,
    sized v d p c cc pk /\
    Obj.version o = VBuf v /\
    k = keyOfFields v d p c cc pk (Base58Check_checksum (sequence v d p c cc pk))
          (xprivkeyOr (Obj.xprivkey o) (Base58Check_encode (sequence v d p c cc pk))).
Proof.
  intros Hcs Hk. pose proof Hk as Hinv. apply _buildFromBuffers_inv in Hinv.
  destruct Hinv as (v & d & p & c & cc & pk & cs & Hs & Hv & Hd & Hp & Hc & Hcc & Hpk & _).
  exists v, d, p, c, cc, pk. split; [exact Hs|]. split; [exact Hv|].
  destruct o as [nw ver dep pfp ci chc prk cks xp]. cbn in *. subst.
  rewrite (_buildFromBuffers_fresh nw cks xp v d p c cc pk Hs Hcs) in Hk.
  now injection Hk as <-.
Qed.


End ToObjectRoundTrip.

(** ** The further properties on the executable instance *)

Lemma sample_hexBytes_bufferToHex (b : bytes) : Sample.hexBytes (bufferToHex b) = Some b.
Proof.
  induction b as [|x b IH]; [reflexivity|].
  cbn [bufferToHex Sample.hexBytes]. rewrite IH. destruct x; reflexivity.
Qed.

Lemma sample_codec_ok : CodecOK Sample.externals.
Proof.
  constructor.
  - apply sample_hexBytes_bufferToHex.
  - intros n Hn. destruct (Sample.get_registered _ n Hn) as [-> | ->];
      (split; [reflexivity | discriminate]).
  - intros b. apply length_Z2be.
Qed.

(** A key whose version names no network of the registry. *)
Definition strayKey : HDPrivateKey :=
  let v := [x00; x00; x00; x00] in
  let d := [x00] in
  let p := [x00; x00; x00; x00] in
  let cc := replicate 32 x01 in
  let pk := replicate 32 x02 in
  @keyOfFields Sample.externals v d p p cc pk
    (Sample.checksum (sequence v d p p cc pk))
    (Str (Sample.encode (sequence v d p p cc pk))).

Lemma strayKey_wf : @wf Sample.externals strayKey.
Proof.
  apply (@_buildFromBuffers_wf_fresh Sample.externals Sample.externals_ok
           (fieldBag [x00; x00; x00; x00] [x00] [x00; x00; x00; x00]
                     [x00; x00; x00; x00] (replicate 32 x01) (replicate 32 x02)));
    reflexivity.
Qed.

Lemma built_key_reloads_witness :
  exists k,
    @new_HDPrivateKey Sample.externals (AObj deepBag) = OK k /\
    @isValidSerialized Sample.externals (ofData (xprivkey k)) VUndefined = true.
Proof.
  destruct (@new_HDPrivateKey Sample.externals (AObj deepBag)) as [k|e] eqn:Hk.
  - exists k. split; [reflexivity|].
    apply (@built_key_reloads Sample.externals Sample.externals_ok (AObj deepBag) k);
      [discriminate | exact Hk].
  - exfalso. vm_compute in Hk. discriminate Hk.
Defined.

Lemma serialized_form_network_witness :
  exists k,
    @_buildFromObject Sample.externals deepBag = OK k /\
    @isValidSerialized Sample.externals (ofData (xprivkey k)) (VNet Sample.livenet) = true /\
    @getSerializedError Sample.externals (ofData (xprivkey k)) (VStr "testnet")
    = Some InvalidNetwork.
Proof.
  destruct (@_buildFromObject Sample.externals deepBag) as [k|e] eqn:Hk.
  - exists k. split; [reflexivity|].
    destruct (@serialized_form_network Sample.externals Sample.externals_ok deepBag
                Sample.livenet k eq_refl eq_refl Hk) as (Hv & Hother & _).
    split; [exact Hv|].
    apply (Hother (VStr "testnet") Sample.testnet); [discriminate | reflexivity | discriminate].
  - exfalso. vm_compute in Hk. discriminate Hk.
Defined.

Lemma valid_for_network_is_valid_witness :
  @isValidSerialized Sample.externals (ofData (xprivkey sampleMaster)) VUndefined = true.
Proof.
  apply (@valid_for_network_is_valid Sample.externals
           (ofData (xprivkey sampleMaster)) (VNet Sample.livenet));
    [discriminate | vm_compute; reflexivity].
Defined.


Lemma json_text_dispatch_witness :
  @new_HDPrivateKey Sample.externals (AVal (VStr "{}"))
  = @_buildFromObject Sample.externals Obj.empty.
Proof.
  apply (@json_text_dispatch Sample.externals (VStr "{}") (Str "{}")); reflexivity.
Defined.

Lemma _buildFromObject_normalizes_witness :
  @_buildFromObject Sample.externals
    (humanBag (VStr "testnet") VUndefined 2 7 5
       (bufferToHex (replicate 32 x11)) (bufferToHex (replicate 32 x22)))
  = @_buildFromBuffers Sample.externals
      (fieldBag (integerAsBuffer 0x04358394) (integerAsSingleByteBuffer 2)
                (integerAsBuffer 7) (integerAsBuffer 5)
                (replicate 32 x11) (replicate 32 x22)).
Proof.
  apply (@_buildFromObject_normalizes Sample.externals (VStr "testnet") VUndefined
           Sample.testnet 2 7 5 (bufferToHex (replicate 32 x11))
           (bufferToHex (replicate 32 x22)) (replicate 32 x11));
    reflexivity.
Defined.

Lemma derive_store_grows_witness :
  snd (@derive Sample.externals sampleMaster (VNum (Int 1)) false
         {[ (Str "x", Int 0, false) := strayKey ]})
    !! (Str "x", Int 0, false) = Some strayKey.
Proof.
  apply (@derive_store_grows Sample.externals). apply lookup_singleton_eq.
Defined.

Lemma derive_again_witness :
  @derive Sample.externals sampleMaster (VStr "m/0/1'") false
    (snd (@derive Sample.externals sampleMaster (VStr "m/0/1'") false ∅))
  = (fst (@derive Sample.externals sampleMaster (VStr "m/0/1'") false ∅),
     snd (@derive Sample.externals sampleMaster (VStr "m/0/1'") false ∅)).
Proof.
  apply (@derive_again Sample.externals sampleMaster (VStr "m/0/1'") false ∅).
  apply surjective_pairing.
Defined.

Lemma path_composition_witness :
  @derive Sample.externals sampleMaster (VStr "m/0/1'") false ∅
  = bindM (@derive Sample.externals sampleMaster (VStr "m/0") false)
          (fun k => @derive Sample.externals k (VStr "m/1'") false) ∅.
Proof.
  exact (@path_composition Sample.externals sampleMaster "m/0" "1'" false ∅ eq_refl).
Defined.

Lemma derive_cache_transparent_witness :
  fst (@derive Sample.externals sampleMaster (VNum (Int 3)) true
         (snd (@_deriveWithNumber Sample.externals sampleMaster (Int 0) false ∅)))
  = fst (@derive Sample.externals sampleMaster (VNum (Int 3)) true ∅).
Proof.
  refine (proj1 (@derive_cache_transparent Sample.externals Sample.externals_ok
                   sampleMaster (VNum (Int 3)) true _ sampleMaster_wf _)).
  exact (proj2 (@_deriveWithNumber_spec Sample.externals sampleMaster
                  (Int 0) false ∅ sampleMaster_wf (@coherent_empty Sample.externals))).
Defined.

Lemma derive_total_witness :
  exists k,
    fst (@derive Sample.externals sampleMaster (VStr "m/x/-7/") false ∅) = OK k /\
    network k = Some Sample.livenet /\
    depth k = 3.
Proof.
  exact (proj2 (@derive_total Sample.externals Sample.externals_ok sampleMaster
                  Sample.livenet ∅ sampleMaster_wf (@coherent_empty Sample.externals)
                  eq_refl)
               "m/x/-7/"%string false "m"%string ["x"; "-7"; ""]%string eq_refl eq_refl).
Defined.


Lemma stored_childIndex_wraps_witness :
  exists child,
    fst (@_deriveWithNumber Sample.externals sampleMaster NaN true ∅) = OK child /\
    integerFromBuffer (Buffers.childIndex (_buffers child)) = 0.
Proof.
  destruct (fst (@_deriveWithNumber Sample.externals sampleMaster NaN true ∅))
    as [child|e] eqn:Hd.
  - exists child. split; [reflexivity|].
    destruct (@stored_childIndex_wraps Sample.externals Sample.externals_ok sampleMaster
                child NaN true ∅ sampleMaster_wf (@coherent_empty Sample.externals) Hd)
      as (_ & _ & Hnan & _).
    now destruct (Hnan eq_refl eq_refl).
  - exfalso. vm_compute in Hd. discriminate Hd.
Defined.

(** A payload with a byte other than zero at offset 45. *)
Definition paddedPayload : bytes :=
  integerAsBuffer 0x0488ade4 ++ [x00] ++ integerAsBuffer 0 ++ integerAsBuffer 0
    ++ replicate 32 x01 ++ [x09] ++ replicate 32 x02.


Lemma fromSeed_outcomes_witness :
  @fromSeed Sample.externals (VStr (bufferToHex (replicate 15 x07))) VUndefined
  = @fromSeed Sample.externals (VBuf (replicate 15 x07)) VUndefined.
Proof.
  apply (proj1 (@fromSeed_outcomes Sample.externals Sample.externals_ok
                  (VStr (bufferToHex (replicate 15 x07))) VUndefined)
               (bufferToHex (replicate 15 x07)) (replicate 15 x07));
    reflexivity.
Defined.

